(** * node-mongodb-backup-s3: the backup pipeline of [index.ts]

    A shallow embedding of [index.ts]: configuration validation, connection
    normalisation, path planning, construction of the [mongodump] command,
    the S3 upload, local retention and the [backupAndUpload] promise chain.

    The external collaborators (the clock behind [moment], the URI parser
    [mongodb-uri], the spawned [mongodump] process and the S3 service) are
    fields of an environment record; the file system and the sequence of
    calls made to the outside are an explicit state. *)

From Stdlib Require Import List String Ascii ZArith Bool Lia DecimalString.
Import ListNotations.
Local Open Scope string_scope.
Local Open Scope Z_scope.
Local Open Scope list_scope.

Set Implicit Arguments.

(** ** JavaScript values as the interfaces type them *)

Module Js.

(** Truthiness, as tested by [if (x)], [x && y] and [x || y].  A field that
    may be missing is an [option]; [None] is [undefined] (or [null]). *)
Class Truthy (A : Type) := truthy : A -> bool.

#[global] Instance truthy_string : Truthy string :=
  fun s => match s with EmptyString => false | String _ _ => true end.

(** Numbers are the integers here; [NaN], the other falsy number, is not
    represented. *)
#[global] Instance truthy_number : Truthy Z :=
  fun n => negb (n =? 0).

#[global] Instance truthy_boolean : Truthy bool :=
  fun b => b.

#[global] Instance truthy_option {A} `{Truthy A} : Truthy (option A) :=
  fun o => match o with Some a => truthy a | None => false end.

(** [x || null]: the value when truthy, [null] otherwise. *)
Definition or_null {A} `{Truthy A} (x : option A) : option A :=
  if truthy x then x else None.

(** [x || d] with a default of the same type. *)
Definition or_default {A} `{Truthy A} (x : option A) (d : A) : A :=
  match x with
  | Some a => if truthy a then a else d
  | None => d
  end.

(** The decimal digits of an integer. *)
Definition decimal (n : Z) : string :=
  NilZero.string_of_int (Z.to_int n).

(** [Number.MAX_SAFE_INTEGER]: up to it every integer is a number of its
    own and is printed with all its digits. *)
Definition MAX_SAFE_INTEGER : Z := 2 ^ 53 - 1.

Definition is_safe_integer (n : Z) : bool :=
  Z.abs n <=? MAX_SAFE_INTEGER.

(** [${x}] for a value that went through [|| null]. *)
Definition show_or_null (x : option string) : string :=
  match x with Some s => s | None => "null" end.

(** [${x}] for a field read directly: a missing one prints [undefined]. *)
Definition show_or_undefined (x : option string) : string :=
  match x with Some s => s | None => "undefined" end.

(** [Array.prototype.slice(start)] with one integer argument: a negative
    [start] counts from the end of the array. *)
Definition slice {A} (start : Z) (l : list A) : list A :=
  if start <? 0
  then skipn (Z.to_nat (Z.max (Z.of_nat (List.length l) + start) 0)) l
  else skipn (Z.to_nat start) l.

(** *** [path.resolve], POSIX flavour *)

(** [s.split("/")]. *)
Fixpoint segments_from (acc s : string) : list string :=
  match s with
  | EmptyString => [acc]
  | String c s' =>
      if Ascii.eqb c "/"
      then acc :: segments_from "" s'
      else segments_from (acc ++ String c "")%string s'
  end.

Definition segments (s : string) : list string := segments_from "" s.

(** The normalisation of an absolute path: empty segments and [.] are
    dropped, [..] drops the segment before it and is itself dropped at the
    root.  [stack] holds the segments kept so far, last one first. *)
Fixpoint normalize_segments (stack segs : list string) : list string :=
  match segs with
  | [] => rev stack
  | seg :: segs' =>
      if String.eqb seg "" || String.eqb seg "." then
        normalize_segments stack segs'
      else if String.eqb seg ".." then
        normalize_segments (tl stack) segs'
      else normalize_segments (seg :: stack) segs'
  end.

Definition is_absolute (s : string) : bool :=
  match s with
  | String c _ => Ascii.eqb c "/"
  | EmptyString => false
  end.

(** The arguments are taken from the right until one is absolute; empty
    ones are skipped.  The flag tells whether an absolute one was met. *)
Fixpoint join_until_absolute (parts : list string) : string * bool :=
  match parts with
  | [] => ("", false)
  | part :: parts' =>
      let '(joined, absolute) := join_until_absolute parts' in
      if absolute then (joined, true)
      else if String.eqb part "" then (joined, false)
      else ((part ++ "/" ++ joined)%string, is_absolute part)
  end.

(** The segments of [path.resolve(...parts)] in a process whose working
    directory is [cwd]. *)
Definition resolve_segments (cwd : string) (parts : list string) : list string :=
  let '(joined, absolute) := join_until_absolute parts in
  normalize_segments []
    (segments (if absolute then joined else (cwd ++ "/" ++ joined)%string)).

End Js.
Import Js.

(** ** The interfaces of [index.ts] *)

Record MongoDBConfig := {
  mc_database : option string;
  mc_host : option string;
  mc_username : option string;
  mc_password : option string;
  mc_port : option Z;
  mc_ssl : option bool;
  mc_authenticationDatabase : option string
}.

Record HostPort := {
  hp_host : option string;
  hp_port : option Z
}.

(** [hosts] is typed as a tuple with one element and read only at index 0;
    a parsed URI may carry further pairs. *)
Record MongoDBInstance := {
  scheme : string;
  username : option string;
  password : option string;
  database : option string;
  ssl : option bool;
  authenticationDatabase : option string;
  hosts_0 : HostPort;
  hosts_rest : list HostPort
}.

Record S3Config := {
  accessKey : option string;
  secretKey : option string;
  region : option string;
  accessPerm : option string;
  bucketName : option string
}.

(** [mongodb: MongoDBConfig | string]. *)
Inductive MongoSpec :=
| MongoObject (c : MongoDBConfig)
| MongoUri (uri : string).

#[global] Instance truthy_MongoSpec : Truthy MongoSpec :=
  fun m => match m with MongoObject _ => true | MongoUri s => truthy s end.

#[global] Instance truthy_S3Config : Truthy S3Config := fun _ => true.

Record Config := {
  keepLocalBackups : bool;
  noOfLocalBackups : option Z;
  timezoneOffset : option Z;
  mongodb : option MongoSpec;
  s3 : option S3Config
}.

#[global] Instance truthy_Config : Truthy Config := fun _ => true.

(** ** ConfigValidator *)

(** [config.s3.f], read only behind the test of [config.s3] itself. *)
Definition s3_field (f : S3Config -> option string) (config : Config)
  : option string :=
  match s3 config with Some s => f s | None => None end.

Definition isValidConfig (config : option Config) : bool :=
  match config with
  | None => false
  | Some c =>
      if truthy c && truthy (mongodb c) && truthy (s3 c)
         && truthy (s3_field accessKey c) && truthy (s3_field secretKey c)
         && truthy (s3_field region c) && truthy (s3_field bucketName c)
      then
        match mongodb c with
        | Some (MongoObject m) =>
            if truthy (mc_database m) && truthy (mc_host m) && truthy (mc_port m)
            then true
            else false
        | _ => true
        end
      else false
  end.

(** ** Template literals *)

(** A template literal is a sequence of literal chunks and substitutions;
    the string handed to the shell is its rendering. *)
Inductive Piece :=
| Lit (s : string)
| Sub (s : string).

Definition Template := list Piece.

Definition piece_text (p : Piece) : string :=
  match p with Lit s => s | Sub s => s end.

Fixpoint render (t : Template) : string :=
  match t with
  | [] => ""
  | p :: t' => (piece_text p ++ render t')%string
  end.

(** The space-separated words of a literal chunk. *)
Fixpoint words_from (acc s : string) : list string :=
  match s with
  | EmptyString => [acc]
  | String c s' =>
      if Ascii.eqb c " "
      then acc :: words_from "" s'
      else words_from (acc ++ String c "")%string s'
  end.

Definition words (s : string) : list string := words_from "" s.

(** The command carries flag [flag] when one of the literal chunks written in
    the source has it as a word; substituted values are data, not flags. *)
Definition has_flag (flag : string) (t : Template) : bool :=
  existsb (fun p => match p with
                    | Lit s => existsb (String.eqb flag) (words s)
                    | Sub _ => false
                    end) t.

(** ** Paths and the file system *)

Record Path := {
  dirname : string;
  basename : string
}.

(** [path.resolve(dir, name)] where [dir] is a resolved directory other
    than the root and [name] one of the names listed in it: the entry
    [name] of [dir]. *)
Definition path_resolve (dir name : string) : Path :=
  {| dirname := dir; basename := name |}.

Definition path_text (p : Path) : string :=
  (dirname p ++ "/" ++ basename p)%string.

(** The path made of the given segments below the root. *)
Definition path_of_segments (segs : list string) : Path :=
  match rev segs with
  | [] => {| dirname := ""; basename := "" |}
  | name :: above =>
      {| dirname := String.concat ""
                      (map (fun seg => ("/" ++ seg)%string) (rev above));
         basename := name |}
  end.

(** [path.resolve(...parts)] for arbitrary arguments. *)
Definition path_resolve_all (cwd : string) (parts : list string) : Path :=
  path_of_segments (resolve_segments cwd parts).

Definition path_eqb (p q : Path) : bool :=
  String.eqb (dirname p) (dirname q) && String.eqb (basename p) (basename q).

(** What [lstat] finds at a path.  A link names the path it leads to; a
    special file (FIFO, socket, device) carries what a read stream opened
    on it delivers, if anything. *)
Inductive Node :=
| RegularFile (contents : string)
| Directory
| SymbolicLink (target : Path)
| Special (data : option string).

Definition isFile (n : Node) : bool :=
  match n with RegularFile _ => true | _ => false end.

Definition isDirectory (n : Node) : bool :=
  match n with Directory => true | _ => false end.

(** The entries of the file system, in the order a directory listing
    returns them. *)
Definition FileSystem := list (Path * Node).

Definition fs_lookup (fs : FileSystem) (p : Path) : option Node :=
  option_map snd (find (fun e => path_eqb (fst e) p) fs).

Definition fs_remove (fs : FileSystem) (p : Path) : FileSystem :=
  filter (fun e => negb (path_eqb (fst e) p)) fs.

Definition fs_is_directory (fs : FileSystem) (dir : string) : bool :=
  existsb (fun e => String.eqb (path_text (fst e)) dir && isDirectory (snd e)) fs.

(** What [stat] finds: the node reached by following links, unless a link
    leads nowhere or the chain of links is too long. *)
Inductive Stat :=
| StatNode (n : Node)
| StatMissing
| StatLoop.

(** The number of links the system follows before it reports [ELOOP]. *)
Definition MAXSYMLINKS : nat := 40.

Fixpoint fs_follow (fuel : nat) (fs : FileSystem) (n : Node) : Stat :=
  match n with
  | SymbolicLink target =>
      match fuel with
      | O => StatLoop
      | S fuel' =>
          match fs_lookup fs target with
          | Some n' => fs_follow fuel' fs n'
          | None => StatMissing
          end
      end
  | _ => StatNode n
  end.

Definition fs_stat (fs : FileSystem) (p : Path) : Stat :=
  match fs_lookup fs p with
  | Some n => fs_follow MAXSYMLINKS fs n
  | None => StatMissing
  end.

Definition stat_is_directory (st : Stat) : bool :=
  match st with StatNode Directory => true | _ => false end.

(** A directory, or a link that leads to one, is found under the name
    [dir]. *)
Definition fs_listable (fs : FileSystem) (dir : string) : bool :=
  existsb (fun e => String.eqb (path_text (fst e)) dir
                    && stat_is_directory (fs_follow MAXSYMLINKS fs (snd e))) fs.

(** The error code of a listing that fails. *)
Definition scandir_error (fs : FileSystem) (dir : string) : string :=
  match find (fun e => String.eqb (path_text (fst e)) dir) fs with
  | None => "ENOENT"
  | Some e =>
      match fs_follow MAXSYMLINKS fs (snd e) with
      | StatMissing => "ENOENT"
      | StatLoop => "ELOOP"
      | StatNode _ => "ENOTDIR"
      end
  end.

Definition fs_children (fs : FileSystem) (dir : string) : list string :=
  map (fun e => basename (fst e))
      (filter (fun e => String.eqb (dirname (fst e)) dir) fs).

(** The names of the plain files of a directory, in listing order. *)
Definition plain_files (fs : FileSystem) (dir : string) : list string :=
  map (fun e => basename (fst e))
      (filter (fun e => String.eqb (dirname (fst e)) dir && isFile (snd e)) fs).

(** ** Calls to the outside, and the state they act on *)

Inductive ParamValue :=
| PString (s : option string)
| PStream (p : Path) (data : option string)
| PObject (fields : list (string * option string)).

Definition Params := list (string * ParamValue).

Definition param (key : string) (ps : Params) : option ParamValue :=
  option_map snd (find (fun kv => String.eqb (fst kv) key) ps).

Inductive Event :=
| AwsConfigUpdate (accessKeyId secretAccessKey awsRegion : option string)
| ExistsSync (p : Path)
| MkdirSync (p : Path)
| Exec (command : string)
| CreateReadStream (p : Path)
| S3CreateBucket (params : Params)
| S3Upload (params : Params)
| ReaddirSync (dir : string)
| LstatSync (p : Path)
| UnlinkSync (p : Path).

Record World := {
  fs : FileSystem;
  calls : list Event
}.

Inductive Error :=
| ErrString (message : string)
| TypeError
| UriParseError
| FsError (syscall code : string) (p : string)
| ExecError (message : string)
| S3Error (message : string).

Inductive Result (A : Type) :=
| Ok (a : A)
| Fail (e : Error).
Arguments Ok {A} a.
Arguments Fail {A} e.

(** A computation that reads and changes the world and may throw (or, for a
    promise, reject). *)
Definition Task (A : Type) := World -> Result A * World.

Definition ret {A} (a : A) : Task A := fun w => (Ok a, w).

Definition throw {A} (e : Error) : Task A := fun w => (Fail e, w).

Definition bind {A B} (m : Task A) (k : A -> Task B) : Task B :=
  fun w => match m w with
           | (Ok a, w') => k a w'
           | (Fail e, w') => (Fail e, w')
           end.

Notation "x <- m ;; k" := (bind m (fun x => k))
  (at level 61, m at next level, right associativity).
Notation "m ;;; k" := (bind m (fun _ => k))
  (at level 61, right associativity).

Definition emit (e : Event) : Task unit :=
  fun w => (Ok tt, {| fs := fs w; calls := calls w ++ [e] |}).

Definition get_fs : Task FileSystem := fun w => (Ok (fs w), w).

Definition put_fs (f : FileSystem) : Task unit :=
  fun w => (Ok tt, {| fs := f; calls := calls w |}).

(** [arr.forEach(f)] for an [f] that may throw. *)
Fixpoint forEach {A} (f : A -> Task unit) (l : list A) : Task unit :=
  match l with
  | [] => ret tt
  | a :: l' => f a ;;; forEach f l'
  end.

(** [arr.filter(f)] for an [f] that may throw. *)
Fixpoint filterT {A} (f : A -> Task bool) (l : list A) : Task (list A) :=
  match l with
  | [] => ret []
  | a :: l' =>
      keep <- f a ;;
      rest <- filterT f l' ;;
      ret (if keep then a :: rest else rest)
  end.

(** *** The calls of [fs] *)

(** [existsSync] follows links: a link that leads nowhere does not
    exist. *)
Definition existsSync (p : Path) : Task bool :=
  emit (ExistsSync p) ;;;
  f <- get_fs ;;
  ret (match fs_stat f p with StatNode _ => true | _ => false end).

Definition mkdirSync (p : Path) : Task unit :=
  emit (MkdirSync p) ;;;
  f <- get_fs ;;
  match fs_lookup f p with
  | Some _ => throw (FsError "mkdir" "EEXIST" (path_text p))
  | None => put_fs (f ++ [(p, Directory)])
  end.

Definition readdirSync (dir : string) : Task (list string) :=
  emit (ReaddirSync dir) ;;;
  f <- get_fs ;;
  if fs_listable f dir
  then ret (fs_children f dir)
  else throw (FsError "scandir" (scandir_error f dir) dir).

Definition lstatSync (p : Path) : Task Node :=
  emit (LstatSync p) ;;;
  f <- get_fs ;;
  match fs_lookup f p with
  | Some n => ret n
  | None => throw (FsError "lstat" "ENOENT" (path_text p))
  end.

Definition unlinkSync (p : Path) : Task unit :=
  emit (UnlinkSync p) ;;;
  f <- get_fs ;;
  match fs_lookup f p with
  | Some Directory => throw (FsError "unlink" "EISDIR" (path_text p))
  | Some _ => put_fs (fs_remove f p)
  | None => throw (FsError "unlink" "ENOENT" (path_text p))
  end.

(** What a read stream opened on [p] delivers, links being followed: the
    contents of a plain file, or nothing when the stream emits [error]. *)
Definition stream_data (f : FileSystem) (p : Path) : option string :=
  match fs_stat f p with
  | StatNode (RegularFile c) => Some c
  | StatNode (Special data) => data
  | _ => None
  end.

(** The error of a read stream that delivers nothing: a directory opens
    but cannot be read. *)
Definition stream_error (f : FileSystem) (p : Path) : Error :=
  match fs_stat f p with
  | StatNode Directory => FsError "read" "EISDIR" (path_text p)
  | StatNode (Special _) => FsError "open" "ENXIO" (path_text p)
  | StatLoop => FsError "open" "ELOOP" (path_text p)
  | _ => FsError "open" "ENOENT" (path_text p)
  end.

(** ** The collaborators *)

Record Env := {
  PROJECT_ROOT : string;
  tmpdir : string;
  (** [process.cwd()] *)
  cwd : string;
  (** [String(n)] for an integer beyond the safe ones, where the digits
      printed are no longer those of the integer *)
  Number_toString : Z -> string;
  (** [moment().utcOffset(offset).format("YYYY-MM-DDTHH-mm-ss")] *)
  moment_format : Z -> string;
  (** [MongodbURI.parse]; [None] when it throws *)
  MongodbURI_parse : string -> option MongoDBInstance;
  (** the spawned process: the error handed to the callback of [exec], if
      any, and the file system it leaves behind *)
  child_process_exec : string -> FileSystem -> option string * FileSystem;
  (** the error handed to the callback of [s3Instance.upload], if any *)
  s3_upload : Params -> option string
}.

(** ** The functions of [index.ts] *)

Section Pipeline.

Variable env : Env.

Definition localBackupFolderName : string := "backups".

(** The default value of the parameter applies when it is [undefined]. *)
Definition currentTime (timezoneOffset : option Z) : string :=
  moment_format env (match timezoneOffset with Some z => z | None => 0 end).

Definition getFileName (database : option string) (timezoneOffset : option Z)
  : string :=
  (show_or_undefined database ++ "_" ++ currentTime timezoneOffset ++ ".gz")%string.

Definition getBackUpPath (config : Config) : string :=
  if keepLocalBackups config
  then path_text (path_resolve_all (cwd env)
                                   [PROJECT_ROOT env; localBackupFolderName])
  else path_text (path_resolve_all (cwd env) [tmpdir env]).

Definition getMongodbConnectionInstance (config : Config)
  : Task MongoDBInstance :=
  match mongodb config with
  | Some (MongoUri uri) =>
      match MongodbURI_parse env uri with
      | Some inst => ret inst
      | None => throw UriParseError
      end
  | Some (MongoObject m) =>
      ret {| scheme := "mongodb";
             username := or_null (mc_username m);
             password := or_null (mc_password m);
             database := mc_database m;
             ssl := mc_ssl m;
             authenticationDatabase := mc_authenticationDatabase m;
             hosts_0 := {| hp_host := mc_host m; hp_port := mc_port m |};
             hosts_rest := [] |}
  | None => throw TypeError
  end.

Definition cleanFs (config : Config) (fullFilePath : Path) (backUpPath : string)
  : Task unit :=
  if negb (keepLocalBackups config) then
    unlinkSync fullFilePath
  else
    match noOfLocalBackups config with
    | Some n =>
        if truthy n then
          dirItems <- readdirSync backUpPath ;;
          files <- filterT (fun dirItem =>
                              st <- lstatSync (path_resolve backUpPath dirItem) ;;
                              ret (isFile st)) dirItems ;;
          let oldBackupNames := slice n (rev files) in
          forEach (fun fileName =>
                     unlinkSync (path_resolve backUpPath fileName))
                  oldBackupNames
        else ret tt
    | None => ret tt
    end.

(** The two parameter objects built by [uploadFile]. *)
Definition uploadParams (s3Config : S3Config) (fullFilePath : Path)
           (fileName : string) (f : FileSystem) : Params :=
  [ ("Bucket", PString (bucketName s3Config));
    ("Key", PString (Some fileName));
    ("Body", PStream fullFilePath (stream_data f fullFilePath)) ].

Definition bucketParams (s3Config : S3Config) : Params :=
  [ ("Bucket", PString (bucketName s3Config));
    ("ACL", PString (Some (or_default (accessPerm s3Config) "private")));
    ("CreateBucketConfiguration",
     PObject [("LocationConstraint", region s3Config)]) ].

(** [uploadFile]: the stream is opened, the bucket is created, and the
    callback of [createBucket] uploads whatever [createBucket] answered.
    The promise rejects with the stream's error when the file cannot be
    read, else settles on the answer of [upload]. *)
Definition uploadFile (s3Config : S3Config) (fullFilePath : Path)
           (fileName : string) : Task unit :=
  emit (CreateReadStream fullFilePath) ;;;
  f <- get_fs ;;
  emit (S3CreateBucket (bucketParams s3Config)) ;;;
  emit (S3Upload (uploadParams s3Config fullFilePath fileName f)) ;;;
  match stream_data f fullFilePath with
  | None => throw (stream_error f fullFilePath)
  | Some _ =>
      match s3_upload env (uploadParams s3Config fullFilePath fileName f) with
      | Some err => throw (S3Error err)
      | None => ret tt
      end
  end.

(** The object returned by [createS3Instance]. *)
Record S3Client := {
  client_uploadFile : Path -> string -> Task unit
}.

Definition createS3Instance (s3Config : option S3Config) : Task S3Client :=
  match s3Config with
  | None => throw TypeError
  | Some c =>
      emit (AwsConfigUpdate (accessKey c) (secretKey c) (region c)) ;;;
      ret {| client_uploadFile := uploadFile c |}
  end.

Definition prepareFolderStructure (config : Config) : Task unit :=
  if keepLocalBackups config then
    let localFolder :=
    path_resolve_all (cwd env) [PROJECT_ROOT env; localBackupFolderName] in
    present <- existsSync localFolder ;;
    if negb present then mkdirSync localFolder else ret tt
  else ret tt.

(** [${n}] for a number: all the digits of a safe integer; what the
    runtime prints otherwise. *)
Definition number_to_string (n : Z) : string :=
  if is_safe_integer n then decimal n else Number_toString env n.

Definition show_port (port : option Z) : string :=
  match port with Some n => number_to_string n | None => "null" end.

(** The command line assembled by [createBackup]. *)
Definition createBackup_command (mongodb : MongoDBInstance) (fullFilePath : Path)
  : Template :=
  let database := show_or_undefined (database mongodb) in
  let password := or_null (password mongodb) in
  let username := or_null (username mongodb) in
  let host := or_null (hp_host (hosts_0 mongodb)) in
  let port := or_null (hp_port (hosts_0 mongodb)) in
  let ssl := or_null (ssl mongodb) in
  let authenticationDatabase := or_null (authenticationDatabase mongodb) in
  let command :=
    [ Lit "mongodump -h "; Sub (show_or_null host);
      Lit " --port="; Sub (show_port port);
      Lit " -d "; Sub database;
      Lit " --quiet --gzip --archive="; Sub (path_text fullFilePath) ] in
  let command :=
    if truthy username && truthy password then
      [ Lit "mongodump -h "; Sub (show_or_null host);
        Lit " --port="; Sub (show_port port);
        Lit " -d "; Sub database;
        Lit " -p "; Sub (show_or_null password);
        Lit " -u "; Sub (show_or_null username);
        Lit " --quiet --gzip --archive="; Sub (path_text fullFilePath) ]
    else command in
  let command :=
    if truthy username && negb (truthy password) then
      [ Lit "mongodump -h "; Sub (show_or_null host);
        Lit " --port="; Sub (show_port port);
        Lit " -d "; Sub database;
        Lit " -u "; Sub (show_or_null username);
        Lit " --quiet --gzip --archive="; Sub (path_text fullFilePath) ]
    else command in
  let command :=
    if truthy ssl then command ++ [ Lit " --ssl" ] else command in
  let command :=
    if truthy authenticationDatabase
    then command ++ [ Lit " --authenticationDatabase=";
                      Sub (show_or_null authenticationDatabase) ]
    else command in
  command.

Definition createBackup (mongodb : MongoDBInstance) (fullFilePath : Path)
  : Task unit :=
  let command := render (createBackup_command mongodb fullFilePath) in
  emit (Exec command) ;;;
  f <- get_fs ;;
  let '(err, f') := child_process_exec env command f in
  put_fs f' ;;;
  match err with
  | Some message => throw (ExecError message)
  | None => ret tt
  end.

(** How a call of [backupAndUpload] ends: the promise it returns resolves
    or rejects, or the call itself throws before a promise exists. *)
Inductive Outcome :=
| Resolved
| Rejected (e : Error)
| Thrown (e : Error).

Definition settle (r : Result unit) : Outcome :=
  match r with Ok _ => Resolved | Fail e => Rejected e end.

(** The values computed by [backupAndUpload] before the promise chain
    starts. *)
Record Plan := {
  mongoConnectionInstance : MongoDBInstance;
  backUpPath : string;
  fileName : string;
  fullFilePath : Path;
  s3client : S3Client
}.

(** The synchronous part of [backupAndUpload]; what it throws is thrown by
    the call itself. *)
Definition backupAndUpload_plan (config : Config) : Task Plan :=
  mongo <- getMongodbConnectionInstance config ;;
  let backUpPath := getBackUpPath config in
  let fileName := getFileName (database mongo) (timezoneOffset config) in
  let fullFilePath := path_resolve_all (cwd env) [backUpPath; fileName] in
  s3 <- createS3Instance (s3 config) ;;
  prepareFolderStructure config ;;;
  ret {| mongoConnectionInstance := mongo;
         backUpPath := backUpPath;
         fileName := fileName;
         fullFilePath := fullFilePath;
         s3client := s3 |}.

(** The promise chain: each [then] runs only when the promise before it
    resolved. *)
Definition backupAndUpload_chain (config : Config) (p : Plan) : Task unit :=
  createBackup (mongoConnectionInstance p) (fullFilePath p) ;;;
  client_uploadFile (s3client p) (fullFilePath p) (fileName p) ;;;
  cleanFs config (fullFilePath p) (backUpPath p).

Definition backupAndUpload (config : option Config) : World -> Outcome * World :=
  fun w =>
    if isValidConfig config then
      match config with
      | Some c =>
          match backupAndUpload_plan c w with
          | (Fail e, w1) => (Thrown e, w1)
          | (Ok p, w1) =>
              let '(r, w2) := backupAndUpload_chain c p w1 in
              (settle r, w2)
          end
      | None => (Thrown TypeError, w)
      end
    else (Rejected (ErrString "Invalid Configuration"), w).

End Pipeline.

(** ** Vocabulary of the statements *)

(** A string field that is set and not the empty string. *)
Definition nonempty (x : option string) : Prop :=
  exists s, x = Some s /\ s <> "".

(** The four required storage fields are all set and non-empty. *)
Definition storage_complete (config : Config) : Prop :=
  exists s, s3 config = Some s
    /\ nonempty (accessKey s) /\ nonempty (secretKey s)
    /\ nonempty (region s) /\ nonempty (bucketName s).

(** The database field is a non-empty URI string, or an object with a
    non-empty name, a non-empty host and a port that passes the test of the
    validator. *)
Definition database_usable (config : Config) : Prop :=
  (exists uri, mongodb config = Some (MongoUri uri) /\ uri <> "")
  \/ (exists m, mongodb config = Some (MongoObject m)
        /\ nonempty (mc_database m) /\ nonempty (mc_host m)
        /\ exists port, mc_port m = Some port /\ port <> 0).

(** No two entries of the file system have the same path. *)
Definition fs_wf (f : FileSystem) : Prop := NoDup (map fst f).

(** The answer of [lstatSync(p).isFile()] when [p] exists. *)
Definition is_file_at (f : FileSystem) (p : Path) : bool :=
  match fs_lookup f p with Some n => isFile n | None => false end.

(** The directory items that pass the filter of [cleanFs]. *)
Definition listed_files (f : FileSystem) (dir : string) : list string :=
  filter (fun item => is_file_at f (path_resolve dir item)) (fs_children f dir).

Definition is_unlink (e : Event) : bool :=
  match e with UnlinkSync _ => true | _ => false end.

(** The credential flags chosen by the two tests on [username] and
    [password]. *)
Definition credential_pieces (mongodb : MongoDBInstance) : Template :=
  if truthy (username mongodb) && truthy (password mongodb) then
    [ Lit " -p "; Sub (show_or_null (or_null (password mongodb)));
      Lit " -u "; Sub (show_or_null (or_null (username mongodb))) ]
  else if truthy (username mongodb) then
    [ Lit " -u "; Sub (show_or_null (or_null (username mongodb))) ]
  else [].

(** Unfolding of the operations of [Task]. *)
Ltac run_task :=
  unfold bind, ret, throw, emit, get_fs, put_fs; simpl.

(** ** Sample inputs *)

Module Sample.

Definition storage : S3Config :=
  {| accessKey := Some "AKIA";
     secretKey := Some "secret";
     region := Some "us-east-1";
     accessPerm := Some "public-read";
     bucketName := Some "backups" |}.

Definition connection (port : option Z) (user pass : option string)
  : MongoDBConfig :=
  {| mc_database := Some "sales";
     mc_host := Some "localhost";
     mc_username := user;
     mc_password := pass;
     mc_port := port;
     mc_ssl := None;
     mc_authenticationDatabase := None |}.

Definition config (keep : bool) (cap : option Z) (port : option Z) : Config :=
  {| keepLocalBackups := keep;
     noOfLocalBackups := cap;
     timezoneOffset := Some 0;
     mongodb := Some (MongoObject (connection port None None));
     s3 := Some storage |}.

(** The same with an empty bucket name. *)
Definition config_without_bucket : Config :=
  {| keepLocalBackups := false;
     noOfLocalBackups := None;
     timezoneOffset := Some 0;
     mongodb := Some (MongoUri "mongodb://localhost:27017/sales");
     s3 := Some {| accessKey := Some "a"; secretKey := Some "b";
                   region := Some "us-east-1"; accessPerm := None;
                   bucketName := Some "" |} |}.

Definition instance (user pass : option string) : MongoDBInstance :=
  {| scheme := "mongodb";
     username := user;
     password := pass;
     database := Some "sales";
     ssl := Some true;
     authenticationDatabase := None;
     hosts_0 := {| hp_host := Some "localhost"; hp_port := Some 27017 |};
     hosts_rest := [] |}.

Definition stamp : string := "2020-01-02T03-04-05".

Definition artifact_name : string := "sales_2020-01-02T03-04-05.gz".

Definition artifact (dir : string) : Path := path_resolve dir artifact_name.

(** A dump process that writes the archive named on its command line into
    [dir], or fails with [failure] and leaves a partial archive behind. *)
Definition dump_into (dir : string) (failure : option string)
  : string -> FileSystem -> option string * FileSystem :=
  fun _ f =>
    (failure,
     fs_remove f (artifact dir)
       ++ [(artifact dir,
            RegularFile (match failure with Some _ => "part" | None => "dump" end))]).

Definition env (dir : string) (dump_failure upload_failure : option string) : Env :=
  {| PROJECT_ROOT := "/app";
     tmpdir := "/tmp";
     cwd := "/app";
     Number_toString := fun _ => "1e+21";
     moment_format := fun _ => stamp;
     MongodbURI_parse := fun _ => None;
     child_process_exec := dump_into dir dump_failure;
     s3_upload := fun _ => upload_failure |}.

Definition root_entry (name : string) : Path * Node :=
  ({| dirname := ""; basename := name |}, Directory).

(** A temporary directory holding one unrelated file. *)
Definition tmp_world : World :=
  {| fs := [ root_entry "tmp";
             (path_resolve "/tmp" "notes.txt", RegularFile "n") ];
     calls := [] |}.

(** The temporary directory once the archive has been written. *)
Definition dumped_world : World :=
  {| fs := [ root_entry "tmp";
             (path_resolve "/tmp" "notes.txt", RegularFile "n");
             (artifact "/tmp", RegularFile "dump") ];
     calls := [] |}.

(** A project with three earlier backups, a sub-directory and a link. *)
Definition backups_world : World :=
  {| fs := [ root_entry "app";
             (path_resolve "/app" "backups", Directory);
             (path_resolve "/app/backups" "a.gz", RegularFile "a");
             (path_resolve "/app/backups" "old", Directory);
             (path_resolve "/app/backups" "b.gz", RegularFile "b");
             (path_resolve "/app/backups" "latest",
              SymbolicLink (path_resolve "/app/backups" "c.gz"));
             (path_resolve "/app/backups" "c.gz", RegularFile "c") ];
     calls := [] |}.

(** The plan of a run of [config keep cap (Some 27017)] that stages into
    [dir]. *)
Definition plan (e : Env) (dir : string) : Plan :=
  {| mongoConnectionInstance :=
       {| scheme := "mongodb";
          username := None;
          password := None;
          database := Some "sales";
          ssl := None;
          authenticationDatabase := None;
          hosts_0 := {| hp_host := Some "localhost"; hp_port := Some 27017 |};
          hosts_rest := [] |};
     backUpPath := dir;
     fileName := artifact_name;
     fullFilePath := artifact dir;
     s3client := {| client_uploadFile := uploadFile e storage |} |}.

(** The world of a run after its synchronous part, after its dump stage and
    after its upload stage. *)
Definition planned (e : Env) (c : Config) (w : World) : World :=
  snd (backupAndUpload_plan e c w).

Definition dumped (e : Env) (c : Config) (dir : string) (w : World) : World :=
  snd (createBackup e (mongoConnectionInstance (plan e dir)) (artifact dir)
                    (planned e c w)).

Definition uploaded (e : Env) (c : Config) (dir : string) (w : World) : World :=
  snd (uploadFile e storage (artifact dir) artifact_name (dumped e c dir w)).

End Sample.

(** ** Further vocabulary and sample inputs *)

(** The calls that open the archive for the storage service or reach the
    service itself. *)
Definition is_upload_call (e : Event) : bool :=
  match e with
  | CreateReadStream _ | S3CreateBucket _ | S3Upload _ => true
  | _ => false
  end.

(** The calls of the synchronous part of [backupAndUpload]. *)
Definition is_setup_call (e : Event) : bool :=
  match e with
  | AwsConfigUpdate _ _ _ | ExistsSync _ | MkdirSync _ => true
  | _ => false
  end.

(** [text] occurs somewhere in [s]. *)
Definition occurs_in (text s : string) : Prop :=
  exists before after, s = (before ++ text ++ after)%string.

(** The folder of the retained backups. *)
Definition localFolder (env : Env) : Path :=
  path_resolve_all (cwd env) [PROJECT_ROOT env; localBackupFolderName].

(** A name without [/]. *)
Fixpoint slash_free (s : string) : bool :=
  match s with
  | EmptyString => true
  | String c s' => negb (Ascii.eqb c "/") && slash_free s'
  end.

(** A name that [path.resolve] keeps as it is: a single segment other than
    [.] and [..]. *)
Definition simple_name (s : string) : bool :=
  slash_free s
  && negb (String.eqb s "" || String.eqb s "." || String.eqb s "..").

Module Cases.

Definition uri : string := "mongodb://db.example.org/sales".

(** A configuration in connection-string form. *)
Definition uri_config (keep : bool) : Config :=
  {| keepLocalBackups := keep;
     noOfLocalBackups := None;
     timezoneOffset := None;
     mongodb := Some (MongoUri uri);
     s3 := Some Sample.storage |}.

(** What a parser makes of a connection string that names neither a port
    nor a database. *)
Definition bare_instance : MongoDBInstance :=
  {| scheme := "mongodb";
     username := None;
     password := None;
     database := None;
     ssl := None;
     authenticationDatabase := Some "admin";
     hosts_0 := {| hp_host := Some "db.example.org"; hp_port := None |};
     hosts_rest := [] |}.

(** An environment whose parser accepts every string as [bare_instance],
    or none at all. *)
Definition env (parses : bool) : Env :=
  {| PROJECT_ROOT := "/app/";
     tmpdir := "/tmp/";
     cwd := "/srv";
     Number_toString := fun _ => "1e+21";
     moment_format := fun _ => Sample.stamp;
     MongodbURI_parse := fun _ => if parses then Some bare_instance else None;
     child_process_exec := Sample.dump_into "/tmp" None;
     s3_upload := fun _ => None |}.

(** A structured connection with credentials and both optional flags. *)
Definition full_connection : MongoDBConfig :=
  {| mc_database := Some "sales";
     mc_host := Some "db.example.org";
     mc_username := Some "bob";
     mc_password := Some "";
     mc_port := Some 27018;
     mc_ssl := Some true;
     mc_authenticationDatabase := Some "admin" |}.

Definition full_config : Config :=
  {| keepLocalBackups := false;
     noOfLocalBackups := Some 1;
     timezoneOffset := Some 120;
     mongodb := Some (MongoObject full_connection);
     s3 := Some Sample.storage |}.

(** A project whose backups folder does not exist yet. *)
Definition fresh_world : World :=
  {| fs := [ Sample.root_entry "app" ]; calls := [] |}.

End Cases.

(** ** Truthiness *)

Lemma truthy_nonempty (x : option string) :
  truthy x = true <-> nonempty x.
Proof.
  split.
  - destruct x as [[|c s]|]; simpl; try discriminate.
    intros _. exists (String c s). split; [reflexivity | discriminate].
  - intros (s & -> & Hs). destruct s; [contradiction | reflexivity].
Qed.

Lemma truthy_port (x : option Z) :
  truthy x = true <-> exists port, x = Some port /\ port <> 0.
Proof.
  split.
  - destruct x as [n|]; simpl; try discriminate.
    unfold truthy, truthy_number. intros H. exists n. split; [reflexivity|].
    apply negb_true_iff, Z.eqb_neq in H. assumption.
  - intros (n & -> & Hn). simpl. unfold truthy, truthy_number.
    apply negb_true_iff, Z.eqb_neq. assumption.
Qed.

Lemma truthy_uri (m : option MongoSpec) :
  truthy m = true <->
  (exists uri, m = Some (MongoUri uri) /\ uri <> "")
  \/ (exists c, m = Some (MongoObject c)).
Proof.
  split.
  - destruct m as [[c|uri]|]; simpl; try discriminate.
    + intros _. right. eauto.
    + intros H. left. exists uri. split; [reflexivity|].
      intros ->. discriminate.
  - intros [(uri & -> & Hu) | (c & ->)]; simpl; [|reflexivity].
    destruct uri; [contradiction | reflexivity].
Qed.

(** ** ConfigValidator *)

(** The validator accepts exactly the configurations whose storage fields
    are complete and whose database field is usable. *)
Lemma isValidConfig_true_iff (c : Config) :
  isValidConfig (Some c) = true <-> storage_complete c /\ database_usable c.
Proof.
  unfold isValidConfig, storage_complete, database_usable, s3_field.
  split.
  - destruct (s3 c) as [s|] eqn:Es; simpl;
      [| rewrite !andb_false_r; discriminate].
    destruct (truthy (mongodb c)) eqn:Em; [|discriminate].
    destruct (truthy (accessKey s)) eqn:E1; [|discriminate].
    destruct (truthy (secretKey s)) eqn:E2; [|discriminate].
    destruct (truthy (region s)) eqn:E3; [|discriminate].
    destruct (truthy (bucketName s)) eqn:E4; [|discriminate].
    simpl. intros H. split.
    + exists s. rewrite <- !truthy_nonempty. auto.
    + apply truthy_uri in Em. destruct Em as [(uri & Hm & Hu) | (m & Hm)].
      * left. eauto.
      * right. exists m. rewrite Hm in H.
        destruct (truthy (mc_database m)) eqn:F1; [|discriminate].
        destruct (truthy (mc_host m)) eqn:F2; [|discriminate].
        destruct (truthy (mc_port m)) eqn:F3; [|discriminate].
        rewrite <- !truthy_nonempty, <- truthy_port. auto.
  - intros [(s & Hs & H1 & H2 & H3 & H4) Hdb]. rewrite Hs.
    apply truthy_nonempty in H1, H2, H3, H4. rewrite H1, H2, H3, H4.
    destruct Hdb as [(uri & Hm & Hu) | (m & Hm & F1 & F2 & F3)]; rewrite Hm.
    + destruct uri; [contradiction | reflexivity].
    + apply truthy_nonempty in F1, F2. apply truthy_port in F3.
      simpl. rewrite F1, F2, F3. reflexivity.
Qed.

(** C2, as stated, fails: a configuration with complete storage fields, a
    non-empty host and database name and the port value [0] is refused. *)
Lemma isValidConfig_port_zero_refused :
  storage_complete (Sample.config false None (Some 0))
  /\ (exists m, mongodb (Sample.config false None (Some 0)) = Some (MongoObject m)
        /\ nonempty (mc_database m) /\ nonempty (mc_host m)
        /\ mc_port m = Some 0)
  /\ isValidConfig (Some (Sample.config false None (Some 0))) = false.
Proof.
  simpl. repeat split.
  - exists Sample.storage. repeat split;
      (eexists; split; [reflexivity | discriminate]).
  - eexists. split; [reflexivity|].
    repeat split; try (eexists; split; [reflexivity | discriminate]).
Qed.

(** C2, amended: for a configuration whose database is a structured object
    with non-empty host and database name and whose storage fields are all
    non-empty, [isValidConfig] accepts exactly when the port is set and is
    not [0]; a port of [0] fails the truthiness test like a missing port. *)
Theorem isValidConfig_port_truthiness (c : Config) (m : MongoDBConfig) :
  mongodb c = Some (MongoObject m) ->
  nonempty (mc_host m) ->
  nonempty (mc_database m) ->
  storage_complete c ->
  (isValidConfig (Some c) = true <->
   exists port, mc_port m = Some port /\ port <> 0).
Proof.
  intros Hm Hh Hd Hs. rewrite isValidConfig_true_iff. split.
  - intros [_ [(uri & Hu & _) | (m' & Hm' & _ & _ & Hp)]]; [congruence|].
    replace m with m' by congruence. exact Hp.
  - intros Hp. split; [assumption|]. right. exists m. auto.
Qed.

Lemma isValidConfig_port_truthiness_witness :
  isValidConfig (Some (Sample.config false None (Some 27017))) = true
  <-> exists port, Some 27017 = Some port /\ port <> 0.
Proof.
  apply (@isValidConfig_port_truthiness
           (Sample.config false None (Some 27017))
           (Sample.connection (Some 27017) None None)).
  - reflexivity.
  - eexists; split; [reflexivity | discriminate].
  - eexists; split; [reflexivity | discriminate].
  - exists Sample.storage. repeat split;
      (eexists; split; [reflexivity | discriminate]).
Defined.

(** ** Orchestrator: invalid configurations *)

(** C3: when a required storage field is missing or empty, or the database
    field is not usable, [backupAndUpload] rejects with the string
    [Invalid Configuration] and the world is left as it was: no call of any
    kind is made and the file system is untouched. *)
Theorem backupAndUpload_invalid_no_effect
        (env : Env) (config : option Config) (w : World) :
  (forall c, config = Some c -> ~ storage_complete c \/ ~ database_usable c) ->
  backupAndUpload env config w
  = (Rejected (ErrString "Invalid Configuration"), w).
Proof.
  intros H. unfold backupAndUpload.
  destruct (isValidConfig config) eqn:E; [|reflexivity].
  destruct config as [c|]; [|discriminate].
  apply isValidConfig_true_iff in E. destruct (H c eq_refl); tauto.
Qed.

Lemma backupAndUpload_invalid_no_effect_witness :
  backupAndUpload (Sample.env "/tmp" None None)
                  (Some Sample.config_without_bucket) Sample.tmp_world
  = (Rejected (ErrString "Invalid Configuration"), Sample.tmp_world).
Proof.
  apply (@backupAndUpload_invalid_no_effect
           (Sample.env "/tmp" None None)
           (Some Sample.config_without_bucket) Sample.tmp_world).
  intros c' Hc. injection Hc as <-. left.
  intros (s & Hs & _ & _ & _ & (b & Hb & Hne)).
  injection Hs as <-. simpl in Hb. injection Hb as <-. apply Hne. reflexivity.
Defined.

(** ** DumpInvoker: the command line *)

Lemma truthy_or_null {A} `{Truthy A} (x : option A) :
  truthy (or_null x) = truthy x.
Proof.
  unfold or_null. destruct (truthy x) eqn:E; [assumption | reflexivity].
Qed.

(** Every command has the same head and tail; only the credential flags
    in between and the two optional flags at the end vary. *)
Lemma createBackup_command_shape (env : Env) (mongodb : MongoDBInstance) (fullFilePath : Path) :
  createBackup_command env mongodb fullFilePath
  = [ Lit "mongodump -h ";
      Sub (show_or_null (or_null (hp_host (hosts_0 mongodb))));
      Lit " --port="; Sub (show_port env (or_null (hp_port (hosts_0 mongodb))));
      Lit " -d "; Sub (show_or_undefined (database mongodb)) ]
    ++ credential_pieces mongodb
    ++ [ Lit " --quiet --gzip --archive="; Sub (path_text fullFilePath) ]
    ++ (if truthy (ssl mongodb) then [ Lit " --ssl" ] else [])
    ++ (if truthy (authenticationDatabase mongodb)
        then [ Lit " --authenticationDatabase=";
               Sub (show_or_null (or_null (authenticationDatabase mongodb))) ]
        else []).
Proof.
  unfold createBackup_command, credential_pieces.
  rewrite !truthy_or_null.
  destruct (truthy (username mongodb)), (truthy (password mongodb)),
    (truthy (ssl mongodb)), (truthy (authenticationDatabase mongodb));
    reflexivity.
Qed.

Lemma has_flag_app (flag : string) (t u : Template) :
  has_flag flag (t ++ u) = has_flag flag t || has_flag flag u.
Proof. unfold has_flag. apply existsb_app. Qed.

(** The flags [-u] and [-p] can only come from the credential pieces. *)
Lemma createBackup_command_user_flag (env : Env) (mongodb : MongoDBInstance) (f : Path) :
  has_flag "-u" (createBackup_command env mongodb f) = truthy (username mongodb).
Proof.
  rewrite createBackup_command_shape, !has_flag_app. unfold credential_pieces.
  destruct (truthy (username mongodb)), (truthy (password mongodb)),
    (truthy (ssl mongodb)), (truthy (authenticationDatabase mongodb));
    reflexivity.
Qed.

Lemma createBackup_command_password_flag (env : Env) (mongodb : MongoDBInstance) (f : Path) :
  has_flag "-p" (createBackup_command env mongodb f)
  = truthy (username mongodb) && truthy (password mongodb).
Proof.
  rewrite createBackup_command_shape, !has_flag_app. unfold credential_pieces.
  destruct (truthy (username mongodb)), (truthy (password mongodb)),
    (truthy (ssl mongodb)), (truthy (authenticationDatabase mongodb));
    reflexivity.
Qed.

Lemma string_app_assoc (a b c : string) :
  ((a ++ b) ++ c = a ++ (b ++ c))%string.
Proof. induction a as [|x a IH]; simpl; congruence. Qed.

Lemma string_app_nil_r (a : string) : (a ++ "" = a)%string.
Proof. induction a as [|x a IH]; simpl; congruence. Qed.

Lemma render_app (t u : Template) :
  render (t ++ u) = (render t ++ render u)%string.
Proof.
  induction t as [|p t IH]; simpl; [reflexivity|].
  rewrite IH. symmetry. apply string_app_assoc.
Qed.

(** The string handed to [exec], for every connection: the credential
    flags sit between the database name and [--quiet]. *)
Lemma createBackup_command_text (env : Env) (mongodb : MongoDBInstance) (f : Path) :
  render (createBackup_command env mongodb f)
  = ("mongodump -h " ++ show_or_null (or_null (hp_host (hosts_0 mongodb)))
     ++ " --port=" ++ show_port env (or_null (hp_port (hosts_0 mongodb)))
     ++ " -d " ++ show_or_undefined (database mongodb)
     ++ render (credential_pieces mongodb)
     ++ " --quiet --gzip --archive=" ++ path_text f
     ++ (if truthy (ssl mongodb) then " --ssl" else "")
     ++ (if truthy (authenticationDatabase mongodb)
         then " --authenticationDatabase="
              ++ show_or_null (or_null (authenticationDatabase mongodb))
         else ""))%string.
Proof.
  rewrite createBackup_command_shape, !render_app.
  destruct (truthy (ssl mongodb)),
    (truthy (authenticationDatabase mongodb));
    cbn [render piece_text];
    rewrite ?string_app_assoc, ?string_app_nil_r; reflexivity.
Qed.

(** The dump stage: one [exec] call; the file system becomes what the
    process leaves behind, and the promise settles on the error it reports. *)
Lemma createBackup_run (env : Env) (m : MongoDBInstance) (f : Path) (w : World) :
  createBackup env m f w
  = (match fst (child_process_exec env (render (createBackup_command env m f)) (fs w)) with
     | Some message => Fail (ExecError message)
     | None => Ok tt
     end,
     {| fs := snd (child_process_exec env (render (createBackup_command env m f)) (fs w));
        calls := calls w ++ [Exec (render (createBackup_command env m f))] |}).
Proof.
  unfold createBackup. run_task.
  destruct (child_process_exec env _ (fs w)) as [[msg|] f']; reflexivity.
Qed.


Lemma show_or_null_truthy (x : option string) (v : string) :
  x = Some v -> v <> "" -> show_or_null (or_null x) = v.
Proof. intros -> Hv. destruct v; [contradiction | reflexivity]. Qed.

(** The credential part of the command line as text, case by case. *)
Lemma credential_text (mongodb : MongoDBInstance) :
  (forall u p,
      username mongodb = Some u -> u <> "" ->
      password mongodb = Some p -> p <> "" ->
      render (credential_pieces mongodb) = (" -p " ++ p ++ " -u " ++ u)%string)
  /\ (forall u,
        username mongodb = Some u -> u <> "" -> ~ nonempty (password mongodb) ->
        render (credential_pieces mongodb) = (" -u " ++ u)%string)
  /\ (~ nonempty (username mongodb) -> render (credential_pieces mongodb) = "").
Proof.
  unfold credential_pieces. repeat split.
  - intros u p Hu Hne Hp Hnp.
    rewrite (show_or_null_truthy Hu Hne), (show_or_null_truthy Hp Hnp).
    replace (truthy (username mongodb)) with true
      by (symmetry; apply truthy_nonempty; exists u; auto).
    replace (truthy (password mongodb)) with true
      by (symmetry; apply truthy_nonempty; exists p; auto).
    simpl. rewrite string_app_nil_r. reflexivity.
  - intros u Hu Hne Hp. rewrite (show_or_null_truthy Hu Hne).
    replace (truthy (username mongodb)) with true
      by (symmetry; apply truthy_nonempty; exists u; auto).
    rewrite <- truthy_nonempty in Hp.
    destruct (truthy (password mongodb)); [tauto|].
    simpl. rewrite string_app_nil_r. reflexivity.
  - intros Hu. rewrite <- truthy_nonempty in Hu.
    destruct (truthy (username mongodb)); [tauto | reflexivity].
Qed.

(** C4: the command has both [-u] and [-p] exactly when the username and the
    password are both present (set and non-empty), and has [-u] without [-p]
    when only the username is present.  This holds of the template built by
    [createBackup] and of the string it hands to [exec]: between the
    database name and [--quiet] that string has [ -p <password> -u
    <username>] when both are present, [ -u <username>] when only the
    username is, and nothing otherwise; its credential part starts with
    [ -p ] exactly in the first case and with [ -u ] exactly in the
    second. *)
Theorem createBackup_credential_flags
        (env : Env) (mongodb : MongoDBInstance) (f : Path) (w : World) :
  (has_flag "-u" (createBackup_command env mongodb f) = true
   /\ has_flag "-p" (createBackup_command env mongodb f) = true
   <-> nonempty (username mongodb) /\ nonempty (password mongodb))
  /\ (nonempty (username mongodb) -> ~ nonempty (password mongodb) ->
      has_flag "-u" (createBackup_command env mongodb f) = true
      /\ has_flag "-p" (createBackup_command env mongodb f) = false)
  /\ exists credentials,
      calls (snd (createBackup env mongodb f w))
      = calls w
        ++ [ Exec ("mongodump -h "
                   ++ show_or_null (or_null (hp_host (hosts_0 mongodb)))
                   ++ " --port="
                   ++ show_port env (or_null (hp_port (hosts_0 mongodb)))
                   ++ " -d " ++ show_or_undefined (database mongodb)
                   ++ credentials
                   ++ " --quiet --gzip --archive=" ++ path_text f
                   ++ (if truthy (ssl mongodb) then " --ssl" else "")
                   ++ (if truthy (authenticationDatabase mongodb)
                       then " --authenticationDatabase="
                            ++ show_or_null
                                 (or_null (authenticationDatabase mongodb))
                       else ""))%string ]
      /\ (forall u p,
            username mongodb = Some u -> u <> "" ->
            password mongodb = Some p -> p <> "" ->
            credentials = (" -p " ++ p ++ " -u " ++ u)%string)
      /\ (forall u,
            username mongodb = Some u -> u <> "" ->
            ~ nonempty (password mongodb) ->
            credentials = (" -u " ++ u)%string)
      /\ (~ nonempty (username mongodb) -> credentials = "")
      /\ ((exists rest, credentials = (" -p " ++ rest)%string)
          <-> nonempty (username mongodb) /\ nonempty (password mongodb))
      /\ ((exists rest, credentials = (" -u " ++ rest)%string)
          <-> nonempty (username mongodb) /\ ~ nonempty (password mongodb)).
Proof.
  split; [|split].
  - rewrite createBackup_command_user_flag, createBackup_command_password_flag.
    rewrite <- !truthy_nonempty, andb_true_iff. tauto.
  - rewrite createBackup_command_user_flag, createBackup_command_password_flag.
    rewrite <- !truthy_nonempty. intros Hu Hp. rewrite Hu. split; [reflexivity|].
    destruct (truthy (password mongodb)); [tauto | reflexivity].
  - exists (render (credential_pieces mongodb)).
    destruct (credential_text mongodb) as (Hboth & Honly & Hnone).
    split; [|split; [exact Hboth | split; [exact Honly | split; [exact Hnone|]]]].
    + rewrite createBackup_run. simpl.
      rewrite createBackup_command_text. reflexivity.
    + rewrite <- !truthy_nonempty.
      destruct (username mongodb) as [u|] eqn:Eu;
        [destruct (String.eqb_spec u "") as [-> | Hne]|].
      * rewrite Hnone by (intros (s & Hs & Hn); congruence).
        simpl. split; split; try (intros [rest H]; discriminate H);
          intros [H _]; discriminate H.
      * destruct (password mongodb) as [p|] eqn:Ep;
          [destruct (String.eqb_spec p "") as [-> | Hnp]|].
        -- rewrite (Honly u eq_refl Hne)
             by (intros (s & Hs & Hn); congruence).
           replace (truthy (Some u)) with true
             by (symmetry; apply truthy_nonempty; exists u; auto).
           simpl. split; split; try (intros [rest H]; discriminate H);
             try (intros [_ H]; discriminate H); eauto.
           intros _. split; [reflexivity | discriminate].
        -- rewrite (Hboth u p eq_refl Hne eq_refl Hnp).
           replace (truthy (Some u)) with true
             by (symmetry; apply truthy_nonempty; exists u; auto).
           replace (truthy (Some p)) with true
             by (symmetry; apply truthy_nonempty; exists p; auto).
           simpl. split; split; try (intros [rest H]; discriminate H);
             try (intros [_ H]; contradiction H; reflexivity); eauto.
        -- rewrite (Honly u eq_refl Hne)
             by (intros (s & Hs & Hn); congruence).
           replace (truthy (Some u)) with true
             by (symmetry; apply truthy_nonempty; exists u; auto).
           simpl. split; split; try (intros [rest H]; discriminate H);
             try (intros [_ H]; discriminate H); eauto.
           intros _. split; [reflexivity | discriminate].
      * rewrite Hnone by (intros (s & Hs & Hn); congruence).
        simpl. split; split; try (intros [rest H]; discriminate H);
          intros [H _]; discriminate H.
Qed.

Lemma createBackup_credential_flags_witness :
  has_flag "-u" (createBackup_command (Sample.env "/tmp" None None)
                                      (Sample.instance (Some "bob") None)
                                      (Sample.artifact "/tmp")) = true
  /\ has_flag "-p" (createBackup_command (Sample.env "/tmp" None None)
                                         (Sample.instance (Some "bob") None)
                                         (Sample.artifact "/tmp")) = false
  /\ calls (snd (createBackup (Sample.env "/tmp" None None)
                              (Sample.instance (Some "bob") None)
                              (Sample.artifact "/tmp") Sample.tmp_world))
     = [ Exec "mongodump -h localhost --port=27017 -d sales -u bob --quiet --gzip --archive=/tmp/sales_2020-01-02T03-04-05.gz --ssl" ].
Proof.
  destruct (createBackup_credential_flags
              (Sample.env "/tmp" None None)
              (Sample.instance (Some "bob") None) (Sample.artifact "/tmp")
              Sample.tmp_world)
    as (_ & Honly & credentials & Hcalls & _ & Hu & _).
  assert (Hpass : ~ nonempty (password (Sample.instance (Some "bob") None)))
    by (intros (s & Hs & _); discriminate Hs).
  destruct Honly as [Hflag_u Hflag_p];
    [exists "bob"; split; [reflexivity | discriminate] | exact Hpass |].
  split; [exact Hflag_u | split; [exact Hflag_p|]].
  rewrite Hcalls.
  rewrite (Hu "bob" eq_refl ltac:(discriminate) Hpass). reflexivity.
Defined.



(** An empty user name is not a user name: the tests are on truthiness. *)
Example createBackup_empty_username :
  render (createBackup_command (Sample.env "/tmp" None None) (Sample.instance (Some "") (Some "pw"))
                               (Sample.artifact "/tmp"))
  = "mongodump -h localhost --port=27017 -d sales --quiet --gzip --archive=/tmp/sales_2020-01-02T03-04-05.gz --ssl".
Proof. reflexivity. Qed.

(** The string handed to [exec] when only a password is set. *)
Example createBackup_render_password_only :
  render (createBackup_command (Sample.env "/tmp" None None) (Sample.instance None (Some "pw"))
                               (Sample.artifact "/tmp"))
  = "mongodump -h localhost --port=27017 -d sales --quiet --gzip --archive=/tmp/sales_2020-01-02T03-04-05.gz --ssl".
Proof. reflexivity. Qed.

Example createBackup_render_both :
  render (createBackup_command (Sample.env "/tmp" None None) (Sample.instance (Some "bob") (Some "pw"))
                               (Sample.artifact "/tmp"))
  = "mongodump -h localhost --port=27017 -d sales -p pw -u bob --quiet --gzip --archive=/tmp/sales_2020-01-02T03-04-05.gz --ssl".
Proof. reflexivity. Qed.

(** ** UploadCoordinator *)

Lemma or_default_spec (x : option string) (d : string) :
  (forall v, x = Some v -> v <> "" -> or_default x d = v)
  /\ (~ nonempty x -> or_default x d = d).
Proof.
  split.
  - intros v -> Hv. destruct v; [contradiction | reflexivity].
  - intros H. destruct x as [[|c v]|]; try reflexivity.
    exfalso. apply H. exists (String c v). split; [reflexivity | discriminate].
Qed.

(** The calls made by [uploadFile] do not depend on how they end. *)
Lemma uploadFile_calls (env : Env) (s3Config : S3Config)
      (fullFilePath : Path) (fileName : string) (w : World) :
  calls (snd (uploadFile env s3Config fullFilePath fileName w))
  = calls w ++ [ CreateReadStream fullFilePath;
                 S3CreateBucket (bucketParams s3Config);
                 S3Upload (uploadParams s3Config fullFilePath fileName (fs w)) ].
Proof.
  unfold uploadFile. run_task.
  destruct (stream_data (fs w) fullFilePath);
    [destruct (s3_upload env _)|]; simpl; rewrite <- !app_assoc; reflexivity.
Qed.

Lemma uploadFile_fs (env : Env) (s3Config : S3Config)
      (fullFilePath : Path) (fileName : string) (w : World) :
  fs (snd (uploadFile env s3Config fullFilePath fileName w)) = fs w.
Proof.
  unfold uploadFile. run_task.
  destruct (stream_data (fs w) fullFilePath);
    [destruct (s3_upload env _)|]; reflexivity.
Qed.

Lemma stream_data_regular (f : FileSystem) (p : Path) (c : string) :
  fs_lookup f p = Some (RegularFile c) -> stream_data f p = Some c.
Proof. intros H. unfold stream_data, fs_stat. rewrite H. reflexivity. Qed.

(** C1, as stated, fails: with the access setting [public-read] configured
    and the archive on disk, no put-object call of [uploadFile] carries an
    ACL equal to the configured value. *)
Lemma uploadFile_put_object_has_no_acl :
  ~ exists ps,
      In (S3Upload ps)
         (calls (snd (uploadFile (Sample.env "/tmp" None None) Sample.storage
                                 (Sample.artifact "/tmp") Sample.artifact_name
                                 Sample.dumped_world)))
      /\ param "Body" ps
         = Some (PStream (Sample.artifact "/tmp") (Some "dump"))
      /\ param "Key" ps = Some (PString (Some Sample.artifact_name))
      /\ param "ACL" ps = Some (PString (Some "public-read")).
Proof.
  intros (ps & Hin & _ & _ & Hacl). rewrite uploadFile_calls in Hin.
  simpl in Hin. destruct Hin as [H | [H | [H | []]]]; try discriminate H.
  injection H as <-. discriminate Hacl.
Qed.

(** C1, amended: [uploadFile] makes a create-bucket call and then a
    put-object call.  The put-object call is made with the configured
    bucket, key = the generated file name, body = the stream of the local
    file (its contents when it is a plain file) and no ACL; the ACL, equal to
    the configured value or [private] when none is configured, is a
    parameter of the create-bucket call. *)
Theorem uploadFile_parameters (env : Env) (s3Config : S3Config)
        (fullFilePath : Path) (fileName : string) (w : World) :
  exists bucket object,
    calls (snd (uploadFile env s3Config fullFilePath fileName w))
    = calls w ++ [ CreateReadStream fullFilePath;
                   S3CreateBucket bucket; S3Upload object ]
    /\ param "Bucket" object = Some (PString (bucketName s3Config))
    /\ param "Key" object = Some (PString (Some fileName))
    /\ param "Body" object
       = Some (PStream fullFilePath (stream_data (fs w) fullFilePath))
    /\ (forall c, fs_lookup (fs w) fullFilePath = Some (RegularFile c) ->
        param "Body" object = Some (PStream fullFilePath (Some c)))
    /\ param "ACL" object = None
    /\ param "Bucket" bucket = Some (PString (bucketName s3Config))
    /\ (forall v, accessPerm s3Config = Some v -> v <> "" ->
        param "ACL" bucket = Some (PString (Some v)))
    /\ (~ nonempty (accessPerm s3Config) ->
        param "ACL" bucket = Some (PString (Some "private"))).
Proof.
  exists (bucketParams s3Config),
    (uploadParams s3Config fullFilePath fileName (fs w)).
  split; [apply uploadFile_calls|].
  destruct (or_default_spec (accessPerm s3Config) "private") as [Hv Hd].
  repeat split; try reflexivity.
  - intros c Hc. unfold uploadParams. rewrite (stream_data_regular _ _ Hc).
    reflexivity.
  - intros v E Hne. unfold bucketParams, param. simpl.
    rewrite (Hv v E Hne). reflexivity.
  - intros Hne. unfold bucketParams, param. simpl.
    rewrite (Hd Hne). reflexivity.
Qed.

Lemma uploadFile_parameters_witness :
  exists bucket object,
    calls (snd (uploadFile (Sample.env "/tmp" None None) Sample.storage
                           (Sample.artifact "/tmp") Sample.artifact_name
                           Sample.dumped_world))
    = [ CreateReadStream (Sample.artifact "/tmp");
        S3CreateBucket bucket; S3Upload object ]
    /\ param "Key" object = Some (PString (Some Sample.artifact_name))
    /\ param "Body" object
       = Some (PStream (Sample.artifact "/tmp") (Some "dump"))
    /\ param "ACL" object = None
    /\ param "ACL" bucket = Some (PString (Some "public-read")).
Proof.
  destruct (uploadFile_parameters (Sample.env "/tmp" None None) Sample.storage
              (Sample.artifact "/tmp") Sample.artifact_name
              Sample.dumped_world)
    as (bucket & object & Hcalls & _ & Hkey & _ & Hbody & Hnone & _ & Hacl & _).
  exists bucket, object. repeat split; try assumption.
  - apply Hbody. reflexivity.
  - apply Hacl; [reflexivity | discriminate].
Defined.

(** ** The file system *)

Lemma path_eqb_eq (p q : Path) : path_eqb p q = true <-> p = q.
Proof.
  destruct p as [d1 b1], q as [d2 b2]. unfold path_eqb. simpl.
  rewrite andb_true_iff, !String.eqb_eq. split.
  - intros [-> ->]. reflexivity.
  - intros H. injection H as -> ->. auto.
Qed.

Lemma path_eqb_refl (p : Path) : path_eqb p p = true.
Proof. apply path_eqb_eq. reflexivity. Qed.

Lemma path_eqb_neq (p q : Path) : path_eqb p q = false <-> p <> q.
Proof.
  rewrite <- path_eqb_eq. destruct (path_eqb p q); split; congruence.
Qed.

Lemma path_resolve_eta (p : Path) :
  path_resolve (dirname p) (basename p) = p.
Proof. destruct p. reflexivity. Qed.

Lemma fs_lookup_In (f : FileSystem) (p : Path) (n : Node) :
  fs_lookup f p = Some n -> In (p, n) f.
Proof.
  unfold fs_lookup. destruct (find _ f) as [[q m]|] eqn:E; [|discriminate].
  simpl. intros H. injection H as ->.
  apply find_some in E. destruct E as [Hin Heq]. simpl in Heq.
  apply path_eqb_eq in Heq. subst q. assumption.
Qed.

Lemma fs_lookup_present (f : FileSystem) (p : Path) (n : Node) :
  In (p, n) f -> fs_lookup f p <> None.
Proof.
  intros Hin. unfold fs_lookup.
  destruct (find _ f) eqn:E; [discriminate|].
  apply (find_none _ _ E) in Hin. simpl in Hin.
  rewrite path_eqb_refl in Hin. discriminate.
Qed.

Lemma fs_wf_functional (f : FileSystem) (p : Path) (n m : Node) :
  fs_wf f -> In (p, n) f -> In (p, m) f -> n = m.
Proof.
  unfold fs_wf. induction f as [|[q k] f IH]; simpl; [contradiction|].
  intros Hnd [H1|H1] [H2|H2]; inversion Hnd; subst.
  - congruence.
  - injection H1 as -> ->. exfalso. apply H3.
    apply (in_map fst) in H2. assumption.
  - injection H2 as -> ->. exfalso. apply H3.
    apply (in_map fst) in H1. assumption.
  - auto.
Qed.

Lemma fs_lookup_wf (f : FileSystem) (p : Path) (n : Node) :
  fs_wf f -> In (p, n) f -> fs_lookup f p = Some n.
Proof.
  intros Hwf Hin. destruct (fs_lookup f p) as [m|] eqn:E.
  - apply fs_lookup_In in E. f_equal. eapply fs_wf_functional; eassumption.
  - exfalso. eapply fs_lookup_present; eassumption.
Qed.

Lemma fs_remove_In (f : FileSystem) (p q : Path) (n : Node) :
  In (q, n) (fs_remove f p) <-> In (q, n) f /\ q <> p.
Proof.
  unfold fs_remove. rewrite filter_In. simpl.
  rewrite negb_true_iff, path_eqb_neq. reflexivity.
Qed.

Lemma fs_lookup_remove_same (f : FileSystem) (p : Path) :
  fs_lookup (fs_remove f p) p = None.
Proof.
  destruct (fs_lookup (fs_remove f p) p) as [n|] eqn:E; [|reflexivity].
  apply fs_lookup_In, fs_remove_In in E. destruct E as [_ E]. congruence.
Qed.

Lemma fs_lookup_remove_other (f : FileSystem) (p q : Path) :
  q <> p -> fs_lookup (fs_remove f p) q = fs_lookup f q.
Proof.
  intros Hne. unfold fs_lookup, fs_remove. f_equal.
  induction f as [|[r n] f IH]; simpl; [reflexivity|].
  destruct (path_eqb r p) eqn:Erp; simpl.
  - apply path_eqb_eq in Erp. subst r.
    replace (path_eqb p q) with false; [assumption|].
    symmetry. apply path_eqb_neq. congruence.
  - destruct (path_eqb r q); [reflexivity | assumption].
Qed.

(** Removing a list of paths one after the other. *)
Lemma fs_remove_all (paths : list Path) (f : FileSystem) :
  fold_left fs_remove paths f
  = filter (fun e => negb (existsb (path_eqb (fst e)) paths)) f.
Proof.
  revert f. induction paths as [|p paths IH]; intros f; simpl.
  - induction f as [|e f IHf]; simpl; congruence.
  - rewrite IH. unfold fs_remove. clear IH.
    induction f as [|e f IHf]; simpl; [reflexivity|].
    destruct (path_eqb (fst e) p); simpl; [assumption|].
    destruct (existsb (path_eqb (fst e)) paths); simpl; congruence.
Qed.

(** ** The calls of [fs] used by the retention step *)

Lemma fs_follow_node (fuel : nat) (f : FileSystem) (n : Node) :
  (forall target, n <> SymbolicLink target) ->
  fs_follow fuel f n = StatNode n.
Proof.
  intros H. destruct fuel, n; try reflexivity; exfalso; eapply H; reflexivity.
Qed.

(** A directory can be listed; so can a link that leads to one. *)
Lemma fs_is_directory_listable (f : FileSystem) (dir : string) :
  fs_is_directory f dir = true -> fs_listable f dir = true.
Proof.
  unfold fs_is_directory, fs_listable. rewrite !existsb_exists.
  intros ([p n] & Hin & H). exists (p, n). split; [exact Hin|].
  simpl in *. apply andb_true_iff in H. destruct H as [-> Hn].
  destruct n; try discriminate. reflexivity.
Qed.

Lemma readdirSync_ok (dir : string) (w : World) :
  fs_listable (fs w) dir = true ->
  readdirSync dir w
  = (Ok (fs_children (fs w) dir),
     {| fs := fs w; calls := calls w ++ [ReaddirSync dir] |}).
Proof.
  intros H. unfold readdirSync. run_task. rewrite H. reflexivity.
Qed.

Lemma readdirSync_fail (dir : string) (w : World) :
  fs_listable (fs w) dir = false ->
  readdirSync dir w
  = (Fail (FsError "scandir" (scandir_error (fs w) dir) dir),
     {| fs := fs w; calls := calls w ++ [ReaddirSync dir] |}).
Proof.
  intros H. unfold readdirSync. run_task. rewrite H. reflexivity.
Qed.

(** Every item of a listing exists, so [lstatSync] does not throw on it. *)
Lemma fs_children_present (f : FileSystem) (dir item : string) :
  In item (fs_children f dir) ->
  fs_lookup f (path_resolve dir item) <> None.
Proof.
  unfold fs_children. rewrite in_map_iff.
  intros ([p n] & <- & Hin). apply filter_In in Hin.
  destruct Hin as [Hin Hd]. simpl in *. apply String.eqb_eq in Hd. subst dir.
  rewrite path_resolve_eta. eapply fs_lookup_present; eassumption.
Qed.

Lemma lstat_isFile_ok (p : Path) (w : World) :
  fs_lookup (fs w) p <> None ->
  (st <- lstatSync p ;; ret (isFile st)) w
  = (Ok (is_file_at (fs w) p),
     {| fs := fs w; calls := calls w ++ [LstatSync p] |}).
Proof.
  intros H. unfold lstatSync, is_file_at. run_task.
  destruct (fs_lookup (fs w) p); [reflexivity | contradiction].
Qed.

Lemma filterT_lstat (dir : string) (items : list string) (w : World) :
  (forall item, In item items ->
                fs_lookup (fs w) (path_resolve dir item) <> None) ->
  filterT (fun dirItem =>
             st <- lstatSync (path_resolve dir dirItem) ;; ret (isFile st))
          items w
  = (Ok (filter (fun item => is_file_at (fs w) (path_resolve dir item)) items),
     {| fs := fs w;
        calls := calls w ++ map (fun i => LstatSync (path_resolve dir i)) items |}).
Proof.
  revert w. induction items as [|item items IH]; intros w H; simpl.
  - unfold ret. rewrite app_nil_r. destruct w; reflexivity.
  - unfold bind at 1. rewrite lstat_isFile_ok by (apply H; left; reflexivity).
    unfold bind at 1. rewrite IH by (intros i Hi; apply H; right; exact Hi).
    unfold ret. simpl. rewrite <- app_assoc. reflexivity.
Qed.

(** With distinct paths, the items that pass the filter are the plain files
    of the directory. *)
Lemma listed_files_wf (f : FileSystem) (dir : string) :
  fs_wf f -> listed_files f dir = plain_files f dir.
Proof.
  intros Hwf. unfold listed_files, plain_files, fs_children.
  assert (Hin : forall e, In e f ->
            String.eqb (dirname (fst e)) dir = true ->
            is_file_at f (path_resolve dir (basename (fst e))) = isFile (snd e)).
  { intros [p n] Hin Hd. simpl in *. apply String.eqb_eq in Hd. subst dir.
    rewrite path_resolve_eta. unfold is_file_at.
    rewrite (fs_lookup_wf _ _ Hwf Hin). reflexivity. }
  revert Hin. generalize f at 1 4 5 as g.
  induction g as [|e g IH]; intros Hin; simpl; [reflexivity|].
  destruct (String.eqb (dirname (fst e)) dir) eqn:Ed; simpl.
  - rewrite (Hin e (or_introl eq_refl) Ed).
    destruct (isFile (snd e)); simpl; rewrite IH;
      try reflexivity;
      intros e0 H0 H1; apply Hin; solve [right; exact H0 | exact H1].
  - apply IH. intros e0 H0 H1. apply Hin; [right; exact H0 | exact H1].
Qed.

Lemma unlinkSync_ok (p : Path) (w : World) :
  is_file_at (fs w) p = true ->
  unlinkSync p w
  = (Ok tt, {| fs := fs_remove (fs w) p; calls := calls w ++ [UnlinkSync p] |}).
Proof.
  unfold is_file_at, unlinkSync. run_task.
  destruct (fs_lookup (fs w) p) as [[c| | |]|]; try discriminate. reflexivity.
Qed.

(** Whatever [unlinkSync] answers, a success has removed the path. *)
Lemma unlinkSync_inv (p : Path) (w w' : World) :
  unlinkSync p w = (Ok tt, w') ->
  w' = {| fs := fs_remove (fs w) p; calls := calls w ++ [UnlinkSync p] |}.
Proof.
  unfold unlinkSync. run_task.
  destruct (fs_lookup (fs w) p) as [[c| | |]|]; intros H;
    try discriminate H; injection H as <-; reflexivity.
Qed.

Lemma forEach_unlink_inv (dir : string) (names : list string) (w w' : World) :
  forEach (fun fileName => unlinkSync (path_resolve dir fileName)) names w
  = (Ok tt, w') ->
  w' = {| fs := fold_left fs_remove (map (path_resolve dir) names) (fs w);
          calls := calls w
                   ++ map (fun n => UnlinkSync (path_resolve dir n)) names |}.
Proof.
  revert w. induction names as [|name names IH]; intros w; simpl.
  - unfold ret. intros H. injection H as <-. rewrite app_nil_r.
    destruct w; reflexivity.
  - unfold bind at 1.
    destruct (unlinkSync (path_resolve dir name) w) as [[[]|e] w1] eqn:E;
      [|discriminate].
    apply unlinkSync_inv in E. subst w1. intros H. apply IH in H.
    rewrite H. simpl. rewrite <- app_assoc. reflexivity.
Qed.

Lemma forEach_unlink_ok (dir : string) (names : list string) (w : World) :
  NoDup names ->
  (forall n, In n names -> is_file_at (fs w) (path_resolve dir n) = true) ->
  exists w',
    forEach (fun fileName => unlinkSync (path_resolve dir fileName)) names w
    = (Ok tt, w').
Proof.
  revert w. induction names as [|name names IH]; intros w Hnd Hfiles; simpl.
  - eexists. reflexivity.
  - inversion Hnd as [|? ? Hnotin Hnd']; subst.
    unfold bind at 1.
    rewrite unlinkSync_ok by (apply Hfiles; left; reflexivity).
    apply IH; [assumption|]. simpl. intros n Hn.
    unfold is_file_at. rewrite fs_lookup_remove_other.
    + apply Hfiles. right. assumption.
    + intros Heq. injection Heq as ->. contradiction.
Qed.

(** ** RetentionManager *)

Lemma slice_nonneg {A} (n : Z) (l : list A) :
  0 <= n -> slice n l = skipn (Z.to_nat n) l.
Proof.
  intros H. unfold slice. destruct (Z.ltb_spec n 0); [lia | reflexivity].
Qed.

Lemma slice_covers {A} (n : Z) (l : list A) :
  Z.of_nat (List.length l) <= n -> slice n l = [].
Proof.
  intros H. rewrite slice_nonneg by lia. apply skipn_all2. lia.
Qed.

Lemma no_unlink_in_lstats (dir : string) (items : list string) :
  filter is_unlink (map (fun i => LstatSync (path_resolve dir i)) items) = [].
Proof. induction items; simpl; auto. Qed.

(** In retained mode with a non-zero cap and a readable directory, the
    retention step lists the directory, asks [lstatSync] about every item
    and then unlinks the slice of the reversed list of plain files. *)
Lemma cleanFs_capped (config : Config) (fullFilePath : Path) (dir : string)
      (n : Z) (w : World) :
  keepLocalBackups config = true ->
  noOfLocalBackups config = Some n ->
  n <> 0 ->
  fs_listable (fs w) dir = true ->
  cleanFs config fullFilePath dir w
  = forEach (fun fileName => unlinkSync (path_resolve dir fileName))
            (slice n (rev (listed_files (fs w) dir)))
            {| fs := fs w;
               calls := calls w ++ ReaddirSync dir
                          :: map (fun i => LstatSync (path_resolve dir i))
                                 (fs_children (fs w) dir) |}.
Proof.
  intros Hk Hn Hz Hd. unfold cleanFs. rewrite Hk, Hn. simpl.
  replace (truthy n) with true
    by (symmetry; apply negb_true_iff, Z.eqb_neq; assumption).
  unfold bind at 1. rewrite (readdirSync_ok _ _ Hd).
  unfold bind at 1. rewrite filterT_lstat
    by (simpl; intros item Hi; apply fs_children_present; exact Hi).
  simpl. rewrite <- app_assoc. reflexivity.
Qed.

Lemma cleanFs_unreadable (config : Config) (fullFilePath : Path) (dir : string)
      (n : Z) (w : World) :
  keepLocalBackups config = true ->
  noOfLocalBackups config = Some n ->
  n <> 0 ->
  fs_listable (fs w) dir = false ->
  cleanFs config fullFilePath dir w
  = (Fail (FsError "scandir" (scandir_error (fs w) dir) dir),
     {| fs := fs w; calls := calls w ++ [ReaddirSync dir] |}).
Proof.
  intros Hk Hn Hz Hd. unfold cleanFs. rewrite Hk, Hn. simpl.
  replace (truthy n) with true
    by (symmetry; apply negb_true_iff, Z.eqb_neq; assumption).
  unfold bind at 1. rewrite (readdirSync_fail _ _ Hd). reflexivity.
Qed.

(** C9: with [keepLocalBackups] true and a cap of [0], the retention step
    does what it does when no cap is configured: it returns at once, makes
    no call and leaves every file in place. *)
Theorem cleanFs_zero_cap (config : Config) (fullFilePath : Path)
        (dir : string) (w : World) :
  keepLocalBackups config = true ->
  noOfLocalBackups config = Some 0 ->
  cleanFs config fullFilePath dir w = (Ok tt, w)
  /\ cleanFs config fullFilePath dir w
     = cleanFs {| keepLocalBackups := true;
                  noOfLocalBackups := None;
                  timezoneOffset := timezoneOffset config;
                  mongodb := mongodb config;
                  s3 := s3 config |} fullFilePath dir w.
Proof.
  intros Hk Hn. unfold cleanFs. rewrite Hk, Hn. simpl. split; reflexivity.
Qed.

Lemma cleanFs_zero_cap_witness :
  cleanFs (Sample.config true (Some 0) (Some 27017))
          (Sample.artifact "/app/backups") "/app/backups" Sample.backups_world
  = (Ok tt, Sample.backups_world).
Proof.
  apply (@cleanFs_zero_cap (Sample.config true (Some 0) (Some 27017))
           (Sample.artifact "/app/backups") "/app/backups" Sample.backups_world);
    reflexivity.
Defined.



(** *** What remains after the old backups are unlinked *)

Lemma existsb_resolved (dir : string) (p : Path) (names : list string) :
  dirname p = dir ->
  existsb (path_eqb p) (map (path_resolve dir) names)
  = existsb (String.eqb (basename p)) names.
Proof.
  intros <-. induction names as [|a names IH]; simpl; [reflexivity|].
  rewrite IH. unfold path_eqb at 1. simpl. rewrite String.eqb_refl.
  reflexivity.
Qed.

Lemma plain_files_In (f : FileSystem) (dir name : string) :
  In name (plain_files f dir) <->
  exists c, In (path_resolve dir name, RegularFile c) f.
Proof.
  unfold plain_files. rewrite in_map_iff. split.
  - intros ([p n] & <- & Hin). apply filter_In in Hin. simpl in Hin.
    destruct Hin as [Hin Hc]. apply andb_true_iff in Hc.
    destruct Hc as [Hd Hf]. apply String.eqb_eq in Hd. subst dir.
    destruct n; try discriminate. rewrite path_resolve_eta. eauto.
  - intros (c & Hin). exists (path_resolve dir name, RegularFile c).
    split; [reflexivity|]. apply filter_In. split; [assumption|].
    simpl. rewrite String.eqb_refl. reflexivity.
Qed.

Lemma plain_files_NoDup (f : FileSystem) (dir : string) :
  fs_wf f -> NoDup (plain_files f dir).
Proof.
  unfold fs_wf. induction f as [|[p n] f IH]; simpl; intros Hnd.
  - constructor.
  - inversion Hnd as [|? ? Hnotin Hnd']; subst.
    unfold plain_files in *. simpl.
    destruct (String.eqb (dirname p) dir && isFile n) eqn:E; simpl; [|auto].
    constructor; [|auto].
    intros Hin. apply in_map_iff in Hin. destruct Hin as ([q m] & Hb & Hin).
    apply filter_In in Hin. simpl in *. destruct Hin as [Hin Hq].
    apply andb_true_iff in E, Hq. destruct E as [E _], Hq as [Hq _].
    apply String.eqb_eq in E, Hq. apply Hnotin.
    replace p with q; [apply (in_map fst) in Hin; exact Hin|].
    destruct p, q. simpl in *. congruence.
Qed.

Lemma plain_files_remove_all (f : FileSystem) (dir : string)
      (names : list string) :
  plain_files (fold_left fs_remove (map (path_resolve dir) names) f) dir
  = filter (fun a => negb (existsb (String.eqb a) names)) (plain_files f dir).
Proof.
  rewrite fs_remove_all. unfold plain_files.
  induction f as [|[p n] f IH]; simpl; [reflexivity|].
  destruct (String.eqb (dirname p) dir) eqn:Ed; simpl.
  - rewrite existsb_resolved by (apply String.eqb_eq; exact Ed).
    destruct (existsb (String.eqb (basename p)) names) eqn:Ex; simpl.
    + destruct (isFile n); simpl; [rewrite Ex; simpl|]; exact IH.
    + rewrite Ed. simpl.
      destruct (isFile n); simpl; [rewrite Ex; simpl; f_equal|]; exact IH.
  - destruct (negb (existsb (path_eqb p) (map (path_resolve dir) names)));
      simpl; [rewrite Ed; simpl|]; exact IH.
Qed.

Lemma existsb_eqb_In (a : string) (l : list string) :
  existsb (String.eqb a) l = true <-> In a l.
Proof.
  rewrite existsb_exists. split.
  - intros (x & Hin & Heq). apply String.eqb_eq in Heq. subst. assumption.
  - intros Hin. exists a. split; [assumption | apply String.eqb_refl].
Qed.

Lemma filter_members_out (b l : list string) :
  incl l b -> filter (fun x => negb (existsb (String.eqb x) b)) l = [].
Proof.
  induction l as [|x l IH]; simpl; intros Hincl; [reflexivity|].
  replace (existsb (String.eqb x) b) with true.
  - simpl. apply IH. intros y Hy. apply Hincl. right. assumption.
  - symmetry. apply existsb_eqb_In. apply Hincl. left. reflexivity.
Qed.

(** Filtering a duplicate-free list by non-membership in its tail part
    leaves its head part. *)
Lemma filter_keeps_head (a b : list string) :
  NoDup (a ++ b) ->
  filter (fun x => negb (existsb (String.eqb x) b)) (a ++ b) = a.
Proof.
  intros Hnd. rewrite filter_app, (filter_members_out (incl_refl b)), app_nil_r.
  induction a as [|x a IH]; simpl in *; [reflexivity|].
  inversion Hnd as [|? ? Hnotin Hnd']; subst.
  replace (existsb (String.eqb x) b) with false.
  - simpl. f_equal. auto.
  - symmetry. apply not_true_is_false. rewrite existsb_eqb_In.
    intros Hin. apply Hnotin. apply in_or_app. right. assumption.
Qed.

Lemma filter_rev_keeps_head (k : nat) (r : list string) :
  NoDup r ->
  filter (fun x => negb (existsb (String.eqb x) (skipn k r))) (rev r)
  = rev (firstn k r).
Proof.
  intros Hnd. rewrite filter_rev. f_equal.
  pose proof (@filter_keeps_head (firstn k r) (skipn k r)) as H.
  rewrite firstn_skipn in H. apply H. exact Hnd.
Qed.

Lemma filter_keeps_newest (k : nat) (l : list string) :
  NoDup l ->
  filter (fun x => negb (existsb (String.eqb x) (skipn k (rev l)))) l
  = rev (firstn k (rev l)).
Proof.
  intros Hnd. apply NoDup_rev in Hnd.
  pose proof (filter_rev_keeps_head k Hnd) as H.
  rewrite rev_involutive in H. exact H.
Qed.

Lemma skipn_In {A} (k : nat) (l : list A) (x : A) :
  In x (skipn k l) -> In x l.
Proof.
  intros H. rewrite <- (firstn_skipn k l). apply in_or_app. right. exact H.
Qed.

Lemma skipn_NoDup {A} (k : nat) (l : list A) :
  NoDup l -> NoDup (skipn k l).
Proof.
  intros H. rewrite <- (firstn_skipn k l) in H.
  apply NoDup_app_remove_l in H. exact H.
Qed.

(** In retained mode with a cap [n >= 1], on a file system with distinct
    paths whose staging directory can be listed, the retention step
    succeeds, and it unlinks exactly the plain files that come after the
    first [n] of the reversed listing. *)
Lemma cleanFs_trims (config : Config) (fullFilePath : Path) (dir : string)
      (n : Z) (w : World) :
  keepLocalBackups config = true ->
  noOfLocalBackups config = Some n ->
  1 <= n ->
  fs_wf (fs w) ->
  fs_is_directory (fs w) dir = true ->
  cleanFs config fullFilePath dir w
  = (Ok tt,
     {| fs := fold_left fs_remove
                (map (path_resolve dir)
                     (skipn (Z.to_nat n) (rev (plain_files (fs w) dir))))
                (fs w);
        calls := calls w
                 ++ ReaddirSync dir
                 :: map (fun i => LstatSync (path_resolve dir i))
                        (fs_children (fs w) dir)
                 ++ map (fun i => UnlinkSync (path_resolve dir i))
                        (skipn (Z.to_nat n) (rev (plain_files (fs w) dir))) |}).
Proof.
  intros Hk Hn Hle Hwf Hd. apply fs_is_directory_listable in Hd.
  rewrite cleanFs_capped with (n := n) by (try assumption; lia).
  rewrite listed_files_wf by assumption.
  rewrite slice_nonneg by lia.
  set (old := skipn (Z.to_nat n) (rev (plain_files (fs w) dir))).
  set (w1 := {| fs := fs w; calls := _ |}).
  destruct (@forEach_unlink_ok dir old w1) as [w' Hw'].
  - apply skipn_NoDup, NoDup_rev, plain_files_NoDup. exact Hwf.
  - intros a Ha. apply skipn_In, in_rev, plain_files_In in Ha.
    destruct Ha as [c Hc]. unfold is_file_at. simpl.
    rewrite fs_lookup_wf with (n := RegularFile c) by assumption.
    reflexivity.
  - rewrite Hw'. apply forEach_unlink_inv in Hw'. rewrite Hw'.
    unfold w1. simpl. rewrite <- app_assoc. reflexivity.
Qed.

(** The plain files left in the directory are the first [k] of the reversed
    listing, still in listing order. *)
Lemma plain_files_trimmed (f : FileSystem) (dir : string) (k : nat) :
  fs_wf f ->
  plain_files
    (fold_left fs_remove
       (map (path_resolve dir) (skipn k (rev (plain_files f dir)))) f) dir
  = rev (firstn k (rev (plain_files f dir))).
Proof.
  intros Hwf. rewrite plain_files_remove_all.
  apply filter_keeps_newest. apply plain_files_NoDup. exact Hwf.
Qed.

(** Whatever the file system was before, if unlinking everything after the
    first [k] items of a reversed listing succeeded and left distinct paths,
    at most [k] plain files remain. *)
Lemma plain_files_bounded (f : FileSystem) (dir : string) (k : nat) :
  fs_wf (fold_left fs_remove
           (map (path_resolve dir) (skipn k (rev (listed_files f dir)))) f) ->
  (List.length
     (plain_files
        (fold_left fs_remove
           (map (path_resolve dir) (skipn k (rev (listed_files f dir)))) f)
        dir) <= k)%nat.
Proof.
  set (old := skipn k (rev (listed_files f dir))).
  set (f' := fold_left fs_remove (map (path_resolve dir) old) f).
  intros Hwf.
  apply Nat.le_trans with (List.length (firstn k (rev (listed_files f dir))));
    [|apply firstn_le_length].
  apply NoDup_incl_length; [apply plain_files_NoDup; exact Hwf|].
  intros a Ha. apply plain_files_In in Ha. destruct Ha as [c Hc].
  assert (Hkeep : forall node, In (path_resolve dir a, node) f' <->
                    In (path_resolve dir a, node) f /\ ~ In a old).
  { intros node. unfold f'. rewrite fs_remove_all, filter_In. simpl.
    rewrite existsb_resolved by reflexivity. simpl.
    rewrite negb_true_iff, <- not_true_iff_false, existsb_eqb_In.
    reflexivity. }
  apply Hkeep in Hc. destruct Hc as [Hin Hnot].
  assert (Hlisted : In a (listed_files f dir)).
  { unfold listed_files. apply filter_In. split.
    - unfold fs_children. apply in_map_iff.
      exists (path_resolve dir a, RegularFile c). split; [reflexivity|].
      apply filter_In. split; [exact Hin | apply String.eqb_refl].
    - unfold is_file_at.
      destruct (fs_lookup f (path_resolve dir a)) as [node|] eqn:E.
      + apply fs_lookup_In in E.
        assert (Hn : In (path_resolve dir a, node) f')
          by (apply Hkeep; split; assumption).
        assert (Hc : In (path_resolve dir a, RegularFile c) f')
          by (apply Hkeep; split; assumption).
        rewrite (@fs_wf_functional f' _ _ _ Hwf Hn Hc). reflexivity.
      + exfalso. eapply fs_lookup_present; eassumption. }
  apply in_rev in Hlisted.
  rewrite <- (firstn_skipn k (rev (listed_files f dir))) in Hlisted.
  apply in_app_or in Hlisted. destruct Hlisted; [assumption | contradiction].
Qed.

(** ** Orchestrator: the stages of a run *)

Lemma backupAndUpload_valid (env : Env) (c : Config) (w : World) :
  isValidConfig (Some c) = true ->
  backupAndUpload env (Some c) w
  = match backupAndUpload_plan env c w with
    | (Fail e, w1) => (Thrown e, w1)
    | (Ok p, w1) =>
        (settle (fst (backupAndUpload_chain env c p w1)),
         snd (backupAndUpload_chain env c p w1))
    end.
Proof.
  intros H. unfold backupAndUpload. rewrite H.
  destruct (backupAndUpload_plan env c w) as [[p|e] w1]; [|reflexivity].
  destruct (backupAndUpload_chain env c p w1). reflexivity.
Qed.

Lemma getMongodbConnectionInstance_world
      (env : Env) (c : Config) (w : World) :
  snd (getMongodbConnectionInstance env c w) = w.
Proof.
  unfold getMongodbConnectionInstance.
  destruct (mongodb c) as [[m|uri]|]; try reflexivity.
  destruct (MongodbURI_parse env uri); reflexivity.
Qed.

Lemma createS3Instance_inv (env : Env) (o : option S3Config)
      (w w' : World) (client : S3Client) :
  createS3Instance env o w = (Ok client, w') ->
  exists s, o = Some s
    /\ client = {| client_uploadFile := uploadFile env s |}
    /\ fs w' = fs w
    /\ filter is_unlink (calls w') = filter is_unlink (calls w).
Proof.
  unfold createS3Instance. destruct o as [s|]; run_task; intros H;
    [|discriminate H].
  injection H as <- <-. exists s. simpl.
  rewrite filter_app. simpl. rewrite app_nil_r. auto.
Qed.

Lemma existsSync_run (p : Path) (w : World) :
  existsSync p w
  = (Ok (match fs_stat (fs w) p with StatNode _ => true | _ => false end),
     {| fs := fs w; calls := calls w ++ [ExistsSync p] |}).
Proof. reflexivity. Qed.

Lemma mkdirSync_effect (p : Path) (w : World) :
  exists added,
    fs (snd (mkdirSync p w)) = fs w ++ added
    /\ calls (snd (mkdirSync p w)) = calls w ++ [MkdirSync p].
Proof.
  unfold mkdirSync. run_task. destruct (fs_lookup (fs w) p); simpl.
  - exists []. rewrite app_nil_r. auto.
  - eexists. auto.
Qed.

(** Whatever it answers, [prepareFolderStructure] only appends to the file
    system, and calls nothing but [existsSync] and [mkdirSync]. *)
Lemma prepareFolderStructure_effect (env : Env) (c : Config) (w : World) :
  exists added evs,
    fs (snd (prepareFolderStructure env c w)) = fs w ++ added
    /\ calls (snd (prepareFolderStructure env c w)) = calls w ++ evs
    /\ Forall (fun e => is_setup_call e = true) evs.
Proof.
  unfold prepareFolderStructure.
  destruct (keepLocalBackups c).
  - fold (localFolder env). unfold bind. rewrite existsSync_run.
    assert (Hmk : forall w1,
               fs w1 = fs w ->
               calls w1 = calls w ++ [ExistsSync (localFolder env)] ->
               exists added evs,
                 fs (snd (mkdirSync (localFolder env) w1)) = fs w ++ added
                 /\ calls (snd (mkdirSync (localFolder env) w1)) = calls w ++ evs
                 /\ Forall (fun e => is_setup_call e = true) evs).
    { intros w1 Hf Hc.
      destruct (mkdirSync_effect (localFolder env) w1) as (added & Hfs & Hcs).
      exists added, [ExistsSync (localFolder env); MkdirSync (localFolder env)].
      rewrite Hfs, Hcs, Hf, Hc, <- app_assoc.
      split; [reflexivity|]. split; [reflexivity|].
      constructor; [reflexivity|]. constructor; [reflexivity | constructor]. }
    destruct (fs_stat (fs w) (localFolder env)); simpl.
    + exists [], [ExistsSync (localFolder env)]. rewrite app_nil_r.
      split; [reflexivity|]. split; [reflexivity|].
      constructor; [reflexivity | constructor].
    + apply Hmk; reflexivity.
    + apply Hmk; reflexivity.
  - exists [], []. unfold ret. simpl. rewrite !app_nil_r.
    split; [reflexivity|]. split; [reflexivity | constructor].
Qed.

Lemma prepareFolderStructure_calls (env : Env) (c : Config) (w : World) :
  filter is_unlink (calls (snd (prepareFolderStructure env c w)))
  = filter is_unlink (calls w).
Proof.
  destruct (prepareFolderStructure_effect env c w) as (added & evs & _ & -> & Hf).
  rewrite filter_app. replace (filter is_unlink evs) with (@nil Event);
    [apply app_nil_r|].
  induction Hf as [|e evs He _ IH]; simpl; [reflexivity|].
  destruct e; try discriminate He; exact IH.
Qed.

(** What the synchronous part fixes for the rest of the run. *)
Lemma backupAndUpload_plan_inv (env : Env) (c : Config) (w w1 : World) (p : Plan) :
  backupAndUpload_plan env c w = (Ok p, w1) ->
  backUpPath p = getBackUpPath env c
  /\ fileName p
     = getFileName env (database (mongoConnectionInstance p)) (timezoneOffset c)
  /\ fullFilePath p
     = path_resolve_all (cwd env) [backUpPath p; fileName p]
  /\ (exists s, s3 c = Some s
                /\ s3client p = {| client_uploadFile := uploadFile env s |})
  /\ filter is_unlink (calls w1) = filter is_unlink (calls w).
Proof.
  unfold backupAndUpload_plan. unfold bind at 1.
  pose proof (getMongodbConnectionInstance_world env c w) as Hw.
  destruct (getMongodbConnectionInstance env c w) as [[m|e] w0];
    [|discriminate]. simpl in Hw. subst w0.
  unfold bind at 1.
  destruct (createS3Instance env (s3 c) w) as [[client|e] w2] eqn:E2;
    [|discriminate].
  apply createS3Instance_inv in E2.
  destruct E2 as (s & Hs & Hclient & _ & Hcalls2).
  unfold bind at 1.
  pose proof (prepareFolderStructure_calls env c w2) as Hcalls3.
  destruct (prepareFolderStructure env c w2) as [[[]|e] w3]; [|discriminate].
  unfold ret. intros H. injection H as <- <-. simpl in *.
  split; [reflexivity|]. split; [reflexivity|]. split; [reflexivity|].
  split; [exists s; auto | congruence].
Qed.

Lemma uploadFile_ok_inv (env : Env) (s : S3Config) (f : Path) (name : string)
      (w w' : World) :
  uploadFile env s f name w = (Ok tt, w') ->
  (exists data, stream_data (fs w) f = Some data) /\ fs w' = fs w.
Proof.
  intros H. split.
  - revert H. unfold uploadFile. run_task.
    destruct (stream_data (fs w) f) as [data|]; [eauto | discriminate].
  - rewrite <- (uploadFile_fs env s f name w), H. reflexivity.
Qed.

(** A path whose read stream delivers data names something that is not a
    directory, so it can be unlinked. *)
Lemma stream_data_present (f : FileSystem) (p : Path) (data : string) :
  stream_data f p = Some data ->
  exists node, fs_lookup f p = Some node /\ node <> Directory.
Proof.
  unfold stream_data, fs_stat.
  destruct (fs_lookup f p) as [node|]; [|discriminate].
  intros H. exists node. split; [reflexivity|].
  intros ->. discriminate H.
Qed.

Lemma unlinkSync_present (p : Path) (w : World) (node : Node) :
  fs_lookup (fs w) p = Some node ->
  node <> Directory ->
  unlinkSync p w
  = (Ok tt, {| fs := fs_remove (fs w) p; calls := calls w ++ [UnlinkSync p] |}).
Proof.
  intros Hn Hd. unfold unlinkSync. run_task. rewrite Hn.
  destruct node; try reflexivity. contradiction.
Qed.

Lemma backupAndUpload_chain_ok_inv (env : Env) (c : Config) (p : Plan)
      (w1 w' : World) :
  backupAndUpload_chain env c p w1 = (Ok tt, w') ->
  exists w2 w3,
    createBackup env (mongoConnectionInstance p) (fullFilePath p) w1 = (Ok tt, w2)
    /\ client_uploadFile (s3client p) (fullFilePath p) (fileName p) w2 = (Ok tt, w3)
    /\ cleanFs c (fullFilePath p) (backUpPath p) w3 = (Ok tt, w').
Proof.
  unfold backupAndUpload_chain. unfold bind at 1.
  destruct (createBackup env _ _ w1) as [[[]|e] w2] eqn:E1; [|discriminate].
  unfold bind at 1.
  destruct (client_uploadFile _ _ _ w2) as [[[]|e] w3] eqn:E2; [|discriminate].
  intros H. exists w2, w3. repeat split; assumption.
Qed.

Lemma backupAndUpload_resolved_inv (env : Env) (c : Config) (w w' : World) :
  backupAndUpload env (Some c) w = (Resolved, w') ->
  exists p w1,
    backupAndUpload_plan env c w = (Ok p, w1)
    /\ backupAndUpload_chain env c p w1 = (Ok tt, w').
Proof.
  intros H. destruct (isValidConfig (Some c)) eqn:Hv.
  - rewrite backupAndUpload_valid in H by assumption.
    destruct (backupAndUpload_plan env c w) as [[p|e] w1]; [|discriminate].
    exists p, w1. split; [reflexivity|].
    destruct (backupAndUpload_chain env c p w1) as [[[]|e] w2];
      simpl in H; [|discriminate].
    injection H as <-. reflexivity.
  - unfold backupAndUpload in H. rewrite Hv in H. discriminate.
Qed.

(** ** Orchestrator: failures *)

(** C7: when the dump stage fails, or the dump stage succeeds and the upload
    stage fails, [backupAndUpload] rejects with that very error, the
    retention step is not run (the run makes no unlink call), and the file
    system is left exactly as the dump process left it, partial archive
    included. *)
Theorem failed_stage_skips_retention
        (env : Env) (c : Config) (w w1 w2 : World) (p : Plan) (e : Error) :
  isValidConfig (Some c) = true ->
  backupAndUpload_plan env c w = (Ok p, w1) ->
  (createBackup env (mongoConnectionInstance p) (fullFilePath p) w1 = (Fail e, w2)
   \/ exists wd,
        createBackup env (mongoConnectionInstance p) (fullFilePath p) w1
        = (Ok tt, wd)
        /\ client_uploadFile (s3client p) (fullFilePath p) (fileName p) wd
           = (Fail e, w2)) ->
  backupAndUpload env (Some c) w = (Rejected e, w2)
  /\ fs w2
     = snd (child_process_exec
              env
              (render (createBackup_command env (mongoConnectionInstance p)
                                            (fullFilePath p)))
              (fs w1))
  /\ filter is_unlink (calls w2) = filter is_unlink (calls w).
Proof.
  intros Hv Hplan Hfail.
  rewrite backupAndUpload_valid by assumption. rewrite Hplan.
  destruct (backupAndUpload_plan_inv _ _ _ Hplan)
    as (_ & _ & _ & (s & _ & Hclient) & Hcalls).
  assert (Hchain : backupAndUpload_chain env c p w1 = (Fail e, w2)).
  { unfold backupAndUpload_chain. unfold bind at 1.
    destruct Hfail as [Hdump | (wd & Hdump & Hup)]; rewrite Hdump;
      [reflexivity|].
    unfold bind at 1. rewrite Hup. reflexivity. }
  rewrite Hchain. simpl. split; [reflexivity|].
  destruct Hfail as [Hdump | (wd & Hdump & Hup)];
    rewrite createBackup_run in Hdump; injection Hdump as _ <-.
  - simpl. rewrite filter_app. simpl. rewrite app_nil_r. auto.
  - rewrite Hclient in Hup. simpl in Hup.
    pose proof (uploadFile_fs env s (fullFilePath p) (fileName p)) as Hfs.
    pose proof (uploadFile_calls env s (fullFilePath p) (fileName p)) as Hc.
    match type of Hup with
    | uploadFile _ _ _ _ ?wd = _ => specialize (Hfs wd); specialize (Hc wd)
    end.
    rewrite Hup in Hfs, Hc. simpl in Hfs, Hc.
    rewrite Hfs, Hc, !filter_app. simpl. rewrite !app_nil_r. auto.
Qed.

Lemma failed_stage_skips_retention_witness :
  backupAndUpload (Sample.env "/tmp" (Some "mongodump: exit 1") None)
                  (Some (Sample.config false None (Some 27017)))
                  Sample.tmp_world
  = (Rejected (ExecError "mongodump: exit 1"),
     Sample.dumped (Sample.env "/tmp" (Some "mongodump: exit 1") None)
                   (Sample.config false None (Some 27017)) "/tmp"
                   Sample.tmp_world)
  /\ fs (Sample.dumped (Sample.env "/tmp" (Some "mongodump: exit 1") None)
                       (Sample.config false None (Some 27017)) "/tmp"
                       Sample.tmp_world)
     = [ Sample.root_entry "tmp";
         (path_resolve "/tmp" "notes.txt", RegularFile "n");
         (Sample.artifact "/tmp", RegularFile "part") ]
  /\ filter is_unlink
       (calls (Sample.dumped (Sample.env "/tmp" (Some "mongodump: exit 1") None)
                             (Sample.config false None (Some 27017)) "/tmp"
                             Sample.tmp_world))
     = [].
Proof.
  apply (@failed_stage_skips_retention
           (Sample.env "/tmp" (Some "mongodump: exit 1") None)
           (Sample.config false None (Some 27017))
           Sample.tmp_world
           (Sample.planned (Sample.env "/tmp" (Some "mongodump: exit 1") None)
                           (Sample.config false None (Some 27017))
                           Sample.tmp_world)
           (Sample.dumped (Sample.env "/tmp" (Some "mongodump: exit 1") None)
                          (Sample.config false None (Some 27017)) "/tmp"
                          Sample.tmp_world)
           (Sample.plan (Sample.env "/tmp" (Some "mongodump: exit 1") None) "/tmp")
           (ExecError "mongodump: exit 1")).
  - reflexivity.
  - reflexivity.
  - left. reflexivity.
Defined.

(** ** Orchestrator: ephemeral mode *)

(** C6: with [keepLocalBackups] false, once the dump stage and the upload
    stage have succeeded the retention step unlinks the artifact:
    [backupAndUpload] resolves, and in the world it resolves in no file
    exists at the planned path, which is the generated file name resolved
    against the resolved temporary directory. *)
Theorem ephemeral_run_deletes_artifact
        (env : Env) (c : Config) (w w1 w2 w3 : World) (p : Plan) :
  isValidConfig (Some c) = true ->
  keepLocalBackups c = false ->
  backupAndUpload_plan env c w = (Ok p, w1) ->
  createBackup env (mongoConnectionInstance p) (fullFilePath p) w1 = (Ok tt, w2) ->
  client_uploadFile (s3client p) (fullFilePath p) (fileName p) w2 = (Ok tt, w3) ->
  exists w',
    backupAndUpload env (Some c) w = (Resolved, w')
    /\ fs w' = fs_remove (fs w2) (fullFilePath p)
    /\ fs_lookup (fs w') (fullFilePath p) = None
    /\ backUpPath p = path_text (path_resolve_all (cwd env) [tmpdir env])
    /\ fullFilePath p
       = path_resolve_all (cwd env) [backUpPath p; fileName p].
Proof.
  intros Hv Hk Hplan Hdump Hup.
  destruct (backupAndUpload_plan_inv _ _ _ Hplan)
    as (Hdir & _ & Hfull & (s & _ & Hclient) & _).
  rewrite Hclient in Hup. simpl in Hup.
  destruct (uploadFile_ok_inv _ _ _ _ _ Hup) as [[data Hdata] Hfs].
  destruct (stream_data_present _ _ Hdata) as (node & Hnode & Hnd).
  exists {| fs := fs_remove (fs w3) (fullFilePath p);
            calls := calls w3 ++ [UnlinkSync (fullFilePath p)] |}.
  split; [|split; [|split; [|split]]].
  - rewrite backupAndUpload_valid by assumption. rewrite Hplan.
    assert (Hchain : backupAndUpload_chain env c p w1
                     = (Ok tt, {| fs := fs_remove (fs w3) (fullFilePath p);
                                  calls := calls w3
                                           ++ [UnlinkSync (fullFilePath p)] |})).
    { unfold backupAndUpload_chain. unfold bind at 1. rewrite Hdump.
      unfold bind at 1. rewrite Hclient. simpl. rewrite Hup.
      unfold cleanFs. rewrite Hk. simpl.
      apply unlinkSync_present with (node := node); [|exact Hnd].
      rewrite Hfs. exact Hnode. }
    rewrite Hchain. reflexivity.
  - simpl. rewrite Hfs. reflexivity.
  - simpl. apply fs_lookup_remove_same.
  - rewrite Hdir. unfold getBackUpPath. rewrite Hk. reflexivity.
  - exact Hfull.
Qed.

Lemma ephemeral_run_deletes_artifact_witness :
  exists w',
    backupAndUpload (Sample.env "/tmp" None None)
                    (Some (Sample.config false None (Some 27017)))
                    Sample.tmp_world
    = (Resolved, w')
    /\ fs w' = fs_remove (fs (Sample.dumped (Sample.env "/tmp" None None)
                                (Sample.config false None (Some 27017)) "/tmp"
                                Sample.tmp_world))
                         (Sample.artifact "/tmp")
    /\ fs_lookup (fs w') (Sample.artifact "/tmp") = None
    /\ backUpPath (Sample.plan (Sample.env "/tmp" None None) "/tmp") = "/tmp"
    /\ Sample.artifact "/tmp"
       = path_resolve_all "/app" ["/tmp"; Sample.artifact_name].
Proof.
  apply (@ephemeral_run_deletes_artifact
           (Sample.env "/tmp" None None)
           (Sample.config false None (Some 27017))
           Sample.tmp_world
           (Sample.planned (Sample.env "/tmp" None None)
                           (Sample.config false None (Some 27017))
                           Sample.tmp_world)
           (Sample.dumped (Sample.env "/tmp" None None)
                          (Sample.config false None (Some 27017)) "/tmp"
                          Sample.tmp_world)
           (Sample.uploaded (Sample.env "/tmp" None None)
                            (Sample.config false None (Some 27017)) "/tmp"
                            Sample.tmp_world)
           (Sample.plan (Sample.env "/tmp" None None) "/tmp"));
    reflexivity.
Defined.

(** ** Retention in retained mode *)

Lemma fs_remove_all_In (paths : list Path) (f : FileSystem)
      (p : Path) (node : Node) :
  In (p, node) (fold_left fs_remove paths f)
  <-> In (p, node) f /\ ~ In p paths.
Proof.
  rewrite fs_remove_all, filter_In. simpl.
  rewrite negb_true_iff, <- not_true_iff_false, existsb_exists.
  split; intros [Hin Hnot]; (split; [exact Hin|]); intros H; apply Hnot.
  - exists p. split; [exact H | apply path_eqb_refl].
  - destruct H as (q & Hq & Heq). apply path_eqb_eq in Heq. subst q. exact Hq.
Qed.

Lemma only_unlinks (dir : string) (names : list string) :
  filter is_unlink (map (fun i => UnlinkSync (path_resolve dir i)) names)
  = map (fun i => UnlinkSync (path_resolve dir i)) names.
Proof. induction names; simpl; congruence. Qed.

(** C5: with [keepLocalBackups] true and a cap [n >= 1], the retention step
    lists the staging directory, keeps only its plain files, reverses that
    list, keeps the first [n] names and unlinks the others, touching nothing
    else; so at most [n] plain files remain.  The same bound holds in the
    world in which a run of [backupAndUpload] resolves. *)
Theorem retention_keeps_at_most_cap (env : Env) (config : Config) (n : Z) :
  keepLocalBackups config = true ->
  noOfLocalBackups config = Some n ->
  1 <= n ->
  (forall (fullFilePath : Path) (dir : string) (w : World),
      fs_wf (fs w) ->
      fs_is_directory (fs w) dir = true ->
      exists w',
        cleanFs config fullFilePath dir w = (Ok tt, w')
        /\ (forall p node,
               In (p, node) (fs w')
               <-> In (p, node) (fs w)
                   /\ ~ In p (map (path_resolve dir)
                                  (skipn (Z.to_nat n)
                                         (rev (plain_files (fs w) dir)))))
        /\ filter is_unlink (calls w')
           = filter is_unlink (calls w)
             ++ map (fun i => UnlinkSync (path_resolve dir i))
                    (skipn (Z.to_nat n) (rev (plain_files (fs w) dir)))
        /\ rev (plain_files (fs w') dir)
           = firstn (Z.to_nat n) (rev (plain_files (fs w) dir))
        /\ Z.of_nat (List.length (plain_files (fs w') dir)) <= n)
  /\ (forall w w',
         backupAndUpload env (Some config) w = (Resolved, w') ->
         fs_wf (fs w') ->
         Z.of_nat (List.length (plain_files (fs w') (getBackUpPath env config)))
         <= n).
Proof.
  intros Hk Hn Hle. split.
  - intros fullFilePath dir w Hwf Hd. eexists. split.
    + apply cleanFs_trims with (n := n); assumption.
    + simpl. split; [|split; [|split]].
      * intros p node. apply fs_remove_all_In.
      * rewrite filter_app. simpl. rewrite filter_app.
        rewrite no_unlink_in_lstats, only_unlinks. reflexivity.
      * rewrite plain_files_trimmed by assumption. apply rev_involutive.
      * rewrite plain_files_trimmed by assumption.
        rewrite length_rev.
        pose proof (firstn_le_length (Z.to_nat n) (rev (plain_files (fs w) dir))).
        lia.
  - intros w w' Hrun Hwf.
    apply backupAndUpload_resolved_inv in Hrun.
    destruct Hrun as (p & w1 & Hplan & Hchain).
    apply backupAndUpload_plan_inv in Hplan.
    destruct Hplan as (Hdir & _). rewrite <- Hdir.
    apply backupAndUpload_chain_ok_inv in Hchain.
    destruct Hchain as (w2 & w3 & _ & _ & Hclean).
    destruct (fs_listable (fs w3) (backUpPath p)) eqn:Hd.
    + rewrite cleanFs_capped with (n := n) in Hclean by (try assumption; lia).
      apply forEach_unlink_inv in Hclean. simpl in Hclean.
      rewrite slice_nonneg in Hclean by lia. subst w'. simpl in *.
      pose proof (plain_files_bounded _ _ _ Hwf). lia.
    + rewrite cleanFs_unreadable with (n := n) in Hclean
        by (try assumption; lia).
      discriminate Hclean.
Qed.

Lemma retention_keeps_at_most_cap_witness :
  (exists w',
      cleanFs (Sample.config true (Some 2) (Some 27017))
              (path_resolve "/app/backups" "c.gz") "/app/backups"
              Sample.backups_world
      = (Ok tt, w')
      /\ plain_files (fs w') "/app/backups" = ["b.gz"; "c.gz"])
  /\ Z.of_nat
       (List.length
          (plain_files
             (fs (snd (backupAndUpload
                         (Sample.env "/app/backups" None None)
                         (Some (Sample.config true (Some 2) (Some 27017)))
                         Sample.backups_world)))
             "/app/backups"))
     <= 2.
Proof.
  destruct (@retention_keeps_at_most_cap
              (Sample.env "/app/backups" None None)
              (Sample.config true (Some 2) (Some 27017)) 2
              eq_refl eq_refl ltac:(lia)) as [Hstep Hrun].
  split.
  - destruct (Hstep (path_resolve "/app/backups" "c.gz") "/app/backups"
                    Sample.backups_world) as (w' & Hw' & _ & _ & Hkept & _).
    + unfold fs_wf. simpl.
      repeat (constructor; [simpl; intuition discriminate|]). constructor.
    + reflexivity.
    + exists w'. split; [exact Hw'|].
      rewrite <- (rev_involutive (plain_files (fs w') "/app/backups")), Hkept.
      reflexivity.
  - apply (Hrun Sample.backups_world).
    + reflexivity.
    + unfold fs_wf. simpl.
      repeat (constructor; [simpl; intuition discriminate|]). constructor.
Defined.

(** * Further properties of [index.ts] *)

(** ** ConfigValidator and ConnectionResolver *)

(** X1: a configuration in connection-string form is accepted exactly when
    the string is not empty and the storage fields are complete; nothing
    about the string itself is looked at. *)
Theorem isValidConfig_uri_form (c : Config) (uri : string) :
  mongodb c = Some (MongoUri uri) ->
  (isValidConfig (Some c) = true <-> uri <> "" /\ storage_complete c).
Proof.
  intros Hm. rewrite isValidConfig_true_iff. unfold database_usable. split.
  - intros [Hs [(u & Hu & Hne) | (m & Hm' & _)]]; [|congruence].
    split; [|exact Hs]. replace uri with u by congruence. exact Hne.
  - intros [Hne Hs]. split; [exact Hs|]. left. exists uri. auto.
Qed.

Lemma isValidConfig_uri_form_witness :
  isValidConfig (Some (Cases.uri_config false)) = true
  <-> Cases.uri <> "" /\ storage_complete (Cases.uri_config false).
Proof.
  apply (@isValidConfig_uri_form (Cases.uri_config false) Cases.uri).
  reflexivity.
Defined.

(** X2: when the connection string of an accepted configuration is refused
    by the parser, [backupAndUpload] throws the parse error itself instead
    of returning a rejected promise, before any call is made. *)
Theorem backupAndUpload_parse_error_thrown
        (env : Env) (c : Config) (uri : string) (w : World) :
  mongodb c = Some (MongoUri uri) ->
  isValidConfig (Some c) = true ->
  MongodbURI_parse env uri = None ->
  backupAndUpload env (Some c) w = (Thrown UriParseError, w).
Proof.
  intros Hm Hv Hp. rewrite backupAndUpload_valid by assumption.
  unfold backupAndUpload_plan, getMongodbConnectionInstance.
  rewrite Hm, Hp. reflexivity.
Qed.

Lemma backupAndUpload_parse_error_thrown_witness :
  backupAndUpload (Cases.env false) (Some (Cases.uri_config false))
                  Sample.tmp_world
  = (Thrown UriParseError, Sample.tmp_world).
Proof.
  apply (@backupAndUpload_parse_error_thrown
           (Cases.env false) (Cases.uri_config false) Cases.uri
           Sample.tmp_world); reflexivity.
Defined.

Lemma or_null_not_empty (x : option string) : or_null x <> Some "".
Proof.
  unfold or_null. destruct x as [[|a s]|]; simpl; discriminate.
Qed.

Lemma or_null_nonempty (x : option string) :
  nonempty (or_null x) <-> nonempty x.
Proof. rewrite <- !truthy_nonempty, truthy_or_null. reflexivity. Qed.

(** X3: a structured connection is resolved without touching the world
    into an instance with one host pair; an empty user name or password
    becomes an absent one, never an empty string. *)
Theorem object_connection_normalised
        (env : Env) (c : Config) (m : MongoDBConfig) (w : World) :
  mongodb c = Some (MongoObject m) ->
  exists inst,
    getMongodbConnectionInstance env c w = (Ok inst, w)
    /\ hosts_0 inst = {| hp_host := mc_host m; hp_port := mc_port m |}
    /\ hosts_rest inst = []
    /\ database inst = mc_database m
    /\ username inst <> Some "" /\ password inst <> Some ""
    /\ (nonempty (username inst) <-> nonempty (mc_username m))
    /\ (nonempty (password inst) <-> nonempty (mc_password m))
    /\ (forall u, nonempty (mc_username m) -> mc_username m = Some u ->
                  username inst = Some u)
    /\ (forall p, nonempty (mc_password m) -> mc_password m = Some p ->
                  password inst = Some p).
Proof.
  intros Hm. unfold getMongodbConnectionInstance. rewrite Hm.
  eexists. split; [reflexivity|]. simpl.
  repeat split; try apply or_null_not_empty; try apply or_null_nonempty.
  - intros u Hu E. apply truthy_nonempty in Hu. unfold or_null.
    rewrite Hu. exact E.
  - intros p Hp E. apply truthy_nonempty in Hp. unfold or_null.
    rewrite Hp. exact E.
Qed.

Lemma object_connection_normalised_witness :
  exists inst,
    getMongodbConnectionInstance (Cases.env true) Cases.full_config
                                 Sample.tmp_world
    = (Ok inst, Sample.tmp_world)
    /\ username inst = Some "bob" /\ password inst <> Some "".
Proof.
  destruct (@object_connection_normalised
              (Cases.env true) Cases.full_config Cases.full_connection
              Sample.tmp_world eq_refl)
    as (inst & Hrun & _ & _ & _ & _ & Hp & _ & _ & Hu & _).
  exists inst. repeat split; [exact Hrun | | exact Hp].
  apply Hu; [|reflexivity]. exists "bob". split; [reflexivity | discriminate].
Defined.

(** ** DumpInvoker: the rest of the command line *)


Lemma createBackup_command_auth_flag (env : Env) (mongodb : MongoDBInstance) (f : Path) :
  has_flag "--authenticationDatabase=" (createBackup_command env mongodb f)
  = truthy (authenticationDatabase mongodb).
Proof.
  rewrite createBackup_command_shape, !has_flag_app;
    unfold credential_pieces;
    destruct (truthy (username mongodb)), (truthy (password mongodb)),
      (truthy (ssl mongodb)), (truthy (authenticationDatabase mongodb));
    reflexivity.
Qed.

Lemma show_port_truthy (env : Env) (x : option Z) (p : Z) :
  x = Some p -> p <> 0 -> show_port env (or_null x) = number_to_string env p.
Proof.
  intros -> Hp. unfold or_null.
  replace (truthy (Some p)) with true; [reflexivity|].
  symmetry. apply truthy_port. eauto.
Qed.

(** X4: for an accepted configuration in structured form, the command
    handed to the shell names the configured host, port and database, with
    no placeholder in their place; a port that is a safe integer is printed
    with all its decimal digits. *)
Theorem valid_object_command
        (env : Env) (c : Config) (m : MongoDBConfig) (f : Path) (w : World) :
  mongodb c = Some (MongoObject m) ->
  isValidConfig (Some c) = true ->
  exists inst h p d,
    getMongodbConnectionInstance env c w = (Ok inst, w)
    /\ mc_host m = Some h /\ mc_port m = Some p /\ mc_database m = Some d
    /\ render (createBackup_command env inst f)
       = ("mongodump -h " ++ h ++ " --port=" ++ number_to_string env p
          ++ " -d " ++ d
          ++ render (credential_pieces inst)
          ++ " --quiet --gzip --archive=" ++ path_text f
          ++ (if truthy (mc_ssl m) then " --ssl" else "")
          ++ (if truthy (mc_authenticationDatabase m)
              then " --authenticationDatabase="
                   ++ show_or_null (or_null (mc_authenticationDatabase m))
              else ""))%string
    /\ (Z.abs p <= MAX_SAFE_INTEGER -> number_to_string env p = decimal p).
Proof.
  intros Hm Hv. apply isValidConfig_true_iff in Hv.
  destruct Hv as [_ [(u & Hu & _) | (m' & Hm' & Hd & Hh & Hp)]]; [congruence|].
  replace m' with m in * by congruence. clear Hm'.
  destruct Hd as (d & Ed & Hd), Hh as (h & Eh & Hh), Hp as (p & Ep & Hp).
  unfold getMongodbConnectionInstance. rewrite Hm.
  eexists. exists h, p, d. split; [reflexivity|].
  split; [exact Eh|]. split; [exact Ep|]. split; [exact Ed|]. split.
  - rewrite createBackup_command_text. simpl.
    rewrite (show_or_null_truthy Eh Hh), (show_port_truthy env Ep Hp), Ed.
    reflexivity.
  - intros Hsafe. unfold number_to_string, is_safe_integer.
    replace (Z.abs p <=? MAX_SAFE_INTEGER) with true; [reflexivity|].
    symmetry. apply Z.leb_le. exact Hsafe.
Qed.

Lemma valid_object_command_witness :
  exists inst h p d,
    getMongodbConnectionInstance (Cases.env true) Cases.full_config
                                 Sample.tmp_world
    = (Ok inst, Sample.tmp_world)
    /\ mc_host Cases.full_connection = Some h
    /\ mc_port Cases.full_connection = Some p
    /\ mc_database Cases.full_connection = Some d
    /\ render (createBackup_command (Cases.env true) inst
                                    (Sample.artifact "/tmp"))
       = ("mongodump -h " ++ h ++ " --port="
          ++ number_to_string (Cases.env true) p
          ++ " -d " ++ d
          ++ render (credential_pieces inst)
          ++ " --quiet --gzip --archive=" ++ path_text (Sample.artifact "/tmp")
          ++ " --ssl" ++ " --authenticationDatabase=admin")%string
    /\ (Z.abs p <= MAX_SAFE_INTEGER ->
        number_to_string (Cases.env true) p = decimal p).
Proof.
  apply (@valid_object_command (Cases.env true) Cases.full_config
           Cases.full_connection (Sample.artifact "/tmp") Sample.tmp_world);
    reflexivity.
Defined.

(** X5: what is missing is printed, not left out.  A host that is absent
    or empty and a port that is absent or [0] appear as [null], and an
    absent database name as [undefined]. *)
Theorem createBackup_placeholders (env : Env) (mongodb : MongoDBInstance) (f : Path) :
  (~ nonempty (hp_host (hosts_0 mongodb)) ->
   occurs_in "mongodump -h null --port="
             (render (createBackup_command env mongodb f)))
  /\ (hp_port (hosts_0 mongodb) = None \/ hp_port (hosts_0 mongodb) = Some 0 ->
      occurs_in " --port=null -d " (render (createBackup_command env mongodb f)))
  /\ (database mongodb = None ->
      occurs_in " -d undefined" (render (createBackup_command env mongodb f))).
Proof.
  rewrite createBackup_command_text. repeat split.
  - intros Hh. rewrite <- truthy_nonempty in Hh. unfold or_null.
    destruct (truthy (hp_host (hosts_0 mongodb))); [tauto|].
    exists "". eexists. simpl. reflexivity.
  - intros Hp.
    replace (show_port env (or_null (hp_port (hosts_0 mongodb)))) with "null"
      by (destruct Hp as [-> | ->]; reflexivity).
    exists ("mongodump -h "
            ++ show_or_null (or_null (hp_host (hosts_0 mongodb))))%string.
    eexists. rewrite !string_app_assoc. simpl. reflexivity.
  - intros ->.
    exists ("mongodump -h "
            ++ show_or_null (or_null (hp_host (hosts_0 mongodb)))
            ++ " --port=" ++ show_port env (or_null (hp_port (hosts_0 mongodb))))%string.
    eexists. rewrite !string_app_assoc. simpl. reflexivity.
Qed.

Lemma createBackup_placeholders_witness :
  occurs_in " --port=null -d "
            (render (createBackup_command (Cases.env true) Cases.bare_instance
                                          (Sample.artifact "/tmp")))
  /\ occurs_in " -d undefined"
               (render (createBackup_command (Cases.env true) Cases.bare_instance
                                             (Sample.artifact "/tmp"))).
Proof.
  destruct (createBackup_placeholders (Cases.env true) Cases.bare_instance
                                      (Sample.artifact "/tmp"))
    as (_ & Hport & Hdb).
  split; [apply Hport; left; reflexivity | apply Hdb; reflexivity].
Defined.

(** X6: every command, whatever the connection, starts with [mongodump]
    and carries the host, port, database, quiet, gzip and archive flags. *)
Theorem createBackup_base_flags (env : Env) (mongodb : MongoDBInstance) (f : Path) :
  Forall (fun flag => has_flag flag (createBackup_command env mongodb f) = true)
         [ "mongodump"; "-h"; "--port="; "-d"; "--quiet"; "--gzip"; "--archive=" ]
  /\ exists rest,
       render (createBackup_command env mongodb f) = ("mongodump -h " ++ rest)%string.
Proof.
  split.
  - repeat constructor;
    rewrite createBackup_command_shape, !has_flag_app;
    unfold credential_pieces;
    destruct (truthy (username mongodb)), (truthy (password mongodb)),
      (truthy (ssl mongodb)), (truthy (authenticationDatabase mongodb));
    reflexivity.
  - rewrite createBackup_command_text. eexists. reflexivity.
Qed.


(** X8: the command carries the authentication-database flag exactly when
    that field is set and not empty, and then ends with the flag and its
    value. *)
Theorem createBackup_authentication_flag (env : Env) (mongodb : MongoDBInstance) (f : Path) :
  (has_flag "--authenticationDatabase=" (createBackup_command env mongodb f) = true
   <-> nonempty (authenticationDatabase mongodb))
  /\ (forall a, authenticationDatabase mongodb = Some a -> a <> "" ->
        exists before,
          render (createBackup_command env mongodb f)
          = (before ++ " --authenticationDatabase=" ++ a)%string).
Proof.
  split.
  - rewrite createBackup_command_auth_flag. apply truthy_nonempty.
  - intros a Ha Hne. rewrite createBackup_command_text.
    replace (truthy (authenticationDatabase mongodb)) with true
      by (symmetry; apply truthy_nonempty; exists a; auto).
    rewrite (show_or_null_truthy Ha Hne).
    eexists. rewrite <- !string_app_assoc. reflexivity.
Qed.

Lemma createBackup_authentication_flag_witness :
  exists before,
    render (createBackup_command (Cases.env true) Cases.bare_instance (Sample.artifact "/tmp"))
    = (before ++ " --authenticationDatabase=" ++ "admin")%string.
Proof.
  apply (proj2 (createBackup_authentication_flag
                  (Cases.env true) Cases.bare_instance
                  (Sample.artifact "/tmp")) "admin").
  - reflexivity.
  - discriminate.
Defined.

(** ** UploadCoordinator: how an upload ends *)

(** X9: [uploadFile] never changes the file system.  It resolves exactly
    when a read stream on the archive path delivers data and the service
    reports no error to the callback of [upload]; an error reported there
    for a readable archive is the rejection reason.  A plain file delivers
    its contents and so does a link that leads to one; a missing archive
    rejects with [ENOENT] on open and a directory with [EISDIR] on read,
    whatever the service answers. *)
Theorem uploadFile_outcome (env : Env) (s : S3Config) (f : Path)
        (name : string) (w : World) :
  fs (snd (uploadFile env s f name w)) = fs w
  /\ (fst (uploadFile env s f name w) = Ok tt
      <-> (exists data, stream_data (fs w) f = Some data)
          /\ s3_upload env (uploadParams s f name (fs w)) = None)
  /\ (forall data message,
        stream_data (fs w) f = Some data ->
        s3_upload env (uploadParams s f name (fs w)) = Some message ->
        fst (uploadFile env s f name w) = Fail (S3Error message))
  /\ (forall c, fs_lookup (fs w) f = Some (RegularFile c) ->
                stream_data (fs w) f = Some c)
  /\ (forall target c,
        fs_lookup (fs w) f = Some (SymbolicLink target) ->
        fs_lookup (fs w) target = Some (RegularFile c) ->
        stream_data (fs w) f = Some c)
  /\ (fs_lookup (fs w) f = None ->
      fst (uploadFile env s f name w)
      = Fail (FsError "open" "ENOENT" (path_text f)))
  /\ (fs_lookup (fs w) f = Some Directory ->
      fst (uploadFile env s f name w)
      = Fail (FsError "read" "EISDIR" (path_text f))).
Proof.
  split; [apply uploadFile_fs|].
  split; [|split; [|split; [|split; [|split]]]].
  - unfold uploadFile. run_task.
    destruct (stream_data (fs w) f) as [data|]; simpl.
    + destruct (s3_upload env _) as [message|]; simpl; split;
        try discriminate; eauto.
      intros [_ H]. discriminate.
    + split; [discriminate | intros [[d Hd] _]; discriminate].
  - intros data message Hf Hs. unfold uploadFile. run_task.
    rewrite Hf, Hs. reflexivity.
  - intros c Hc. apply stream_data_regular. exact Hc.
  - intros target c Hl Ht. unfold stream_data, fs_stat. rewrite Hl.
    simpl. rewrite Ht. reflexivity.
  - intros Hnone. unfold uploadFile, stream_error, stream_data, fs_stat.
    run_task. rewrite Hnone. reflexivity.
  - intros Hdir. unfold uploadFile, stream_error, stream_data, fs_stat.
    run_task. rewrite Hdir. reflexivity.
Qed.

Lemma uploadFile_outcome_witness :
  fst (uploadFile (Sample.env "/tmp" None (Some "AccessDenied")) Sample.storage
                  (Sample.artifact "/tmp") Sample.artifact_name
                  Sample.dumped_world)
  = Fail (S3Error "AccessDenied")
  /\ stream_data (fs Sample.backups_world) (path_resolve "/app/backups" "latest")
     = Some "c".
Proof.
  split.
  - apply (proj1 (proj2 (proj2 (uploadFile_outcome
                                  (Sample.env "/tmp" None (Some "AccessDenied"))
                                  Sample.storage (Sample.artifact "/tmp")
                                  Sample.artifact_name Sample.dumped_world)))
                 "dump" "AccessDenied"); reflexivity.
  - apply (proj1 (proj2 (proj2 (proj2 (proj2
             (uploadFile_outcome (Sample.env "/tmp" None None) Sample.storage
                (path_resolve "/app/backups" "latest") "latest"
                Sample.backups_world)))))
             (path_resolve "/app/backups" "c.gz") "c"); reflexivity.
Defined.

(** ** Orchestrator: what each stage adds to a run *)

Lemma prepareFolderStructure_setup_calls (env : Env) (c : Config) (w : World) :
  exists evs,
    calls (snd (prepareFolderStructure env c w)) = calls w ++ evs
    /\ Forall (fun e => is_setup_call e = true) evs.
Proof.
  destruct (prepareFolderStructure_effect env c w) as (added & evs & _ & H).
  exists evs. exact H.
Qed.

(** The synchronous part only updates the AWS configuration and looks
    after the backups folder. *)
Lemma backupAndUpload_plan_setup_calls
      (env : Env) (c : Config) (w w1 : World) (p : Plan) :
  backupAndUpload_plan env c w = (Ok p, w1) ->
  exists evs,
    calls w1 = calls w ++ evs /\ Forall (fun e => is_setup_call e = true) evs.
Proof.
  unfold backupAndUpload_plan. unfold bind at 1.
  pose proof (getMongodbConnectionInstance_world env c w) as Hw.
  destruct (getMongodbConnectionInstance env c w) as [[m|e] w0];
    [|discriminate]. simpl in Hw. subst w0.
  unfold bind at 1. unfold createS3Instance.
  destruct (s3 c) as [s|]; [|discriminate]. run_task.
  match goal with
  | |- context [prepareFolderStructure env c ?w2] =>
      destruct (prepareFolderStructure_setup_calls env c w2) as (evs & Hc & Hf);
      destruct (prepareFolderStructure env c w2) as [[[]|e] w3];
      [|discriminate]
  end.
  intros H. injection H as _ <-. simpl in Hc.
  eexists. rewrite Hc, <- app_assoc. split; [reflexivity|].
  constructor; [reflexivity | exact Hf].
Qed.

Lemma setup_calls_are_not_uploads (evs : list Event) :
  Forall (fun e => is_setup_call e = true) evs ->
  filter is_upload_call evs = [].
Proof.
  induction 1 as [|e evs He _ IH]; simpl; [reflexivity|].
  destruct e; try discriminate He; exact IH.
Qed.

(** X10: a dump that fails is not uploaded.  When the dump process reports
    an error, the run rejects with that error after a single call, the
    [exec] itself: the archive is not opened and the storage service is not
    contacted at any point of the run. *)
Theorem failed_dump_is_not_uploaded
        (env : Env) (c : Config) (w w1 : World) (p : Plan) (message : string) :
  isValidConfig (Some c) = true ->
  backupAndUpload_plan env c w = (Ok p, w1) ->
  fst (child_process_exec
         env
         (render (createBackup_command env (mongoConnectionInstance p)
                                       (fullFilePath p)))
         (fs w1))
  = Some message ->
  exists w',
    backupAndUpload env (Some c) w = (Rejected (ExecError message), w')
    /\ calls w'
       = calls w1
         ++ [Exec (render (createBackup_command env (mongoConnectionInstance p)
                                                (fullFilePath p)))]
    /\ filter is_upload_call (calls w') = filter is_upload_call (calls w).
Proof.
  intros Hv Hplan Hexec.
  rewrite backupAndUpload_valid by assumption. rewrite Hplan.
  unfold backupAndUpload_chain. unfold bind at 1 3.
  rewrite createBackup_run, Hexec. simpl.
  eexists. split; [reflexivity|]. simpl. split; [reflexivity|].
  destruct (backupAndUpload_plan_setup_calls _ _ _ Hplan) as (evs & -> & Hf).
  rewrite !filter_app, (setup_calls_are_not_uploads Hf). simpl.
  rewrite !app_nil_r. reflexivity.
Qed.

Lemma failed_dump_is_not_uploaded_witness :
  exists w',
    backupAndUpload (Sample.env "/tmp" (Some "mongodump: exit 1") None)
                    (Some (Sample.config false None (Some 27017)))
                    Sample.tmp_world
    = (Rejected (ExecError "mongodump: exit 1"), w')
    /\ filter is_upload_call (calls w') = [].
Proof.
  destruct (@failed_dump_is_not_uploaded
              (Sample.env "/tmp" (Some "mongodump: exit 1") None)
              (Sample.config false None (Some 27017))
              Sample.tmp_world
              (Sample.planned (Sample.env "/tmp" (Some "mongodump: exit 1") None)
                              (Sample.config false None (Some 27017))
                              Sample.tmp_world)
              (Sample.plan (Sample.env "/tmp" (Some "mongodump: exit 1") None)
                           "/tmp")
              "mongodump: exit 1" eq_refl eq_refl eq_refl)
    as (w' & Hrun & _ & Hnone).
  exists w'. split; [exact Hrun | exact Hnone].
Defined.

(** X11: the whole of a successful run in ephemeral mode.  When the dump
    process reports no error and leaves a plain file at the planned path in
    the temporary directory, and the service reports no error, the run
    resolves after exactly six calls, in this order: the AWS configuration,
    the dump, the read stream, create-bucket, put-object under the
    generated file name, and the unlink of the archive; the file system is
    the one the dump process left, without the archive. *)
Theorem ephemeral_run_trace
        (env : Env) (c : Config) (inst : MongoDBInstance) (s : S3Config)
        (w : World) (left_behind : FileSystem) (data : string) :
  isValidConfig (Some c) = true ->
  keepLocalBackups c = false ->
  getMongodbConnectionInstance env c w = (Ok inst, w) ->
  s3 c = Some s ->
  let staging := path_text (path_resolve_all (cwd env) [tmpdir env]) in
  let name := getFileName env (database inst) (timezoneOffset c) in
  let archive := path_resolve_all (cwd env) [staging; name] in
  let command := render (createBackup_command env inst archive) in
  child_process_exec env command (fs w) = (None, left_behind) ->
  fs_lookup left_behind archive = Some (RegularFile data) ->
  s3_upload env (uploadParams s archive name left_behind) = None ->
  backupAndUpload env (Some c) w
  = (Resolved,
     {| fs := fs_remove left_behind archive;
        calls := calls w
                 ++ [ AwsConfigUpdate (accessKey s) (secretKey s) (region s);
                      Exec command;
                      CreateReadStream archive;
                      S3CreateBucket (bucketParams s);
                      S3Upload (uploadParams s archive name left_behind);
                      UnlinkSync archive ] |}).
Proof.
  intros Hv Hk Hinst Hs staging name archive command Hexec Hfile Hup.
  rewrite backupAndUpload_valid by assumption.
  unfold backupAndUpload_plan. unfold bind at 1. rewrite Hinst.
  unfold getBackUpPath, prepareFolderStructure, createS3Instance.
  rewrite Hk, Hs. run_task.
  fold staging. fold name. fold archive.
  unfold backupAndUpload_chain. simpl. unfold bind at 1 3.
  rewrite createBackup_run. fold command. simpl. rewrite Hexec. simpl.
  unfold uploadFile, cleanFs, unlinkSync. rewrite Hk. run_task.
  rewrite (stream_data_regular _ _ Hfile), Hup. simpl.
  rewrite Hfile. simpl. rewrite <- !app_assoc. reflexivity.
Qed.

Lemma ephemeral_run_trace_witness :
  backupAndUpload (Sample.env "/tmp" None None)
                  (Some (Sample.config false None (Some 27017)))
                  Sample.tmp_world
  = (Resolved,
     {| fs := fs Sample.tmp_world;
        calls :=
          [ AwsConfigUpdate (Some "AKIA") (Some "secret") (Some "us-east-1");
            Exec "mongodump -h localhost --port=27017 -d sales --quiet --gzip --archive=/tmp/sales_2020-01-02T03-04-05.gz";
            CreateReadStream (Sample.artifact "/tmp");
            S3CreateBucket (bucketParams Sample.storage);
            S3Upload (uploadParams Sample.storage (Sample.artifact "/tmp")
                                   Sample.artifact_name
                                   (fs Sample.dumped_world));
            UnlinkSync (Sample.artifact "/tmp") ] |}).
Proof.
  apply (@ephemeral_run_trace
           (Sample.env "/tmp" None None)
           (Sample.config false None (Some 27017))
           (mongoConnectionInstance (Sample.plan (Sample.env "/tmp" None None) "/tmp"))
           Sample.storage Sample.tmp_world (fs Sample.dumped_world) "dump");
    reflexivity.
Defined.

(** ** The backups folder *)








(** ** RetentionManager: both modes, every cap *)

(** X13: in ephemeral mode the retention step unlinks the artifact and
    nothing else, whatever cap is configured: every other entry of the file
    system stays.  When nothing is at the artifact's path the step throws
    and the file system is unchanged. *)
Theorem cleanFs_ephemeral_only_artifact
        (config : Config) (fullFilePath : Path) (dir : string) (w : World) :
  keepLocalBackups config = false ->
  (forall node,
      fs_lookup (fs w) fullFilePath = Some node -> node <> Directory ->
      exists w',
        cleanFs config fullFilePath dir w = (Ok tt, w')
        /\ calls w' = calls w ++ [UnlinkSync fullFilePath]
        /\ forall q n, In (q, n) (fs w') <-> In (q, n) (fs w) /\ q <> fullFilePath)
  /\ (fs_lookup (fs w) fullFilePath = None ->
      exists e w',
        cleanFs config fullFilePath dir w = (Fail e, w') /\ fs w' = fs w).
Proof.
  intros Hk. unfold cleanFs. rewrite Hk. simpl. unfold unlinkSync. run_task.
  split.
  - intros node Hnode Hnd. rewrite Hnode.
    exists {| fs := fs_remove (fs w) fullFilePath;
              calls := calls w ++ [UnlinkSync fullFilePath] |}.
    split; [destruct node; try reflexivity; contradiction|].
    split; [reflexivity|]. intros q n. apply fs_remove_In.
  - intros Hnone. rewrite Hnone. eexists. eexists. split; reflexivity.
Qed.

Lemma cleanFs_ephemeral_only_artifact_witness :
  exists w',
    cleanFs (Sample.config false (Some 1) (Some 27017))
            (Sample.artifact "/tmp") "/tmp" Sample.dumped_world
    = (Ok tt, w')
    /\ calls w' = [UnlinkSync (Sample.artifact "/tmp")]
    /\ forall q n,
         In (q, n) (fs w')
         <-> In (q, n) (fs Sample.dumped_world) /\ q <> Sample.artifact "/tmp".
Proof.
  apply (proj1 (@cleanFs_ephemeral_only_artifact
                  (Sample.config false (Some 1) (Some 27017))
                  (Sample.artifact "/tmp") "/tmp" Sample.dumped_world eq_refl)
               (RegularFile "dump")).
  - reflexivity.
  - discriminate.
Defined.

Lemma slice_is_skipn {A} (n : Z) (l : list A) :
  exists k, slice n l = skipn k l.
Proof.
  unfold slice. destruct (n <? 0); eexists; reflexivity.
Qed.

(** In retained mode with any non-zero cap, on a file system with
    distinct paths whose staging directory can be listed, the retention
    step succeeds and unlinks the slice of the reversed list of plain
    files. *)
Lemma cleanFs_capped_ok (config : Config) (fullFilePath : Path) (dir : string)
      (n : Z) (w : World) :
  keepLocalBackups config = true ->
  noOfLocalBackups config = Some n ->
  n <> 0 ->
  fs_wf (fs w) ->
  fs_listable (fs w) dir = true ->
  cleanFs config fullFilePath dir w
  = (Ok tt,
     {| fs := fold_left fs_remove
                (map (path_resolve dir) (slice n (rev (plain_files (fs w) dir))))
                (fs w);
        calls := calls w
                 ++ ReaddirSync dir
                 :: map (fun i => LstatSync (path_resolve dir i))
                        (fs_children (fs w) dir)
                 ++ map (fun i => UnlinkSync (path_resolve dir i))
                        (slice n (rev (plain_files (fs w) dir))) |}).
Proof.
  intros Hk Hn Hz Hwf Hd.
  rewrite cleanFs_capped with (n := n) by assumption.
  rewrite listed_files_wf by assumption.
  destruct (slice_is_skipn n (rev (plain_files (fs w) dir))) as [k Hs].
  rewrite Hs.
  set (old := skipn k (rev (plain_files (fs w) dir))).
  set (w1 := {| fs := fs w; calls := _ |}).
  destruct (@forEach_unlink_ok dir old w1) as [w' Hw'].
  - apply skipn_NoDup, NoDup_rev, plain_files_NoDup. exact Hwf.
  - intros a Ha. apply skipn_In, in_rev, plain_files_In in Ha.
    destruct Ha as [c Hc]. unfold is_file_at. simpl.
    rewrite fs_lookup_wf with (n := RegularFile c) by assumption.
    reflexivity.
  - rewrite Hw'. apply forEach_unlink_inv in Hw'. rewrite Hw'.
    unfold w1. simpl. rewrite <- app_assoc. reflexivity.
Qed.


Lemma path_resolve_In (dir : string) (a : string) (names : list string) :
  In (path_resolve dir a) (map (path_resolve dir) names) <-> In a names.
Proof.
  rewrite in_map_iff. split.
  - intros (b & Heq & Hin). injection Heq as ->. exact Hin.
  - intros Hin. exists a. auto.
Qed.

Lemma fs_lookup_remove_all_other (paths : list Path) (f : FileSystem) (q : Path) :
  ~ In q paths -> fs_lookup (fold_left fs_remove paths f) q = fs_lookup f q.
Proof.
  revert f. induction paths as [|p paths IH]; intros f Hq; simpl.
  - reflexivity.
  - rewrite IH by (intros H; apply Hq; right; exact H).
    apply fs_lookup_remove_other. intros ->. apply Hq. left. reflexivity.
Qed.

Lemma fs_lookup_remove_all_gone (paths : list Path) (f : FileSystem) (q : Path) :
  In q paths -> fs_lookup (fold_left fs_remove paths f) q = None.
Proof.
  intros Hq. destruct (fs_lookup _ q) as [n|] eqn:E; [|reflexivity].
  apply fs_lookup_In, fs_remove_all_In in E. tauto.
Qed.



Lemma filter_all_kept (P : string -> bool) (l : list string) :
  (forall x, In x l -> P x = true) -> filter P l = l.
Proof.
  intros H. apply forallb_filter_id, forallb_forall. exact H.
Qed.

(** Filtering a duplicate-free list by non-membership in its reversed head
    part leaves its tail part. *)
Lemma filter_drops_head (a b : list string) :
  NoDup (a ++ b) ->
  filter (fun x => negb (existsb (String.eqb x) (rev a))) (a ++ b) = b.
Proof.
  intros Hnd. rewrite filter_app.
  rewrite filter_members_out by (intros x Hx; apply in_rev in Hx; exact Hx).
  simpl. apply filter_all_kept. intros x Hx.
  apply negb_true_iff, not_true_is_false. rewrite existsb_eqb_In, <- in_rev.
  intros Ha. revert Hnd Ha Hx. clear. induction a as [|y a IH]; simpl.
  - contradiction.
  - intros Hnd [-> | Ha] Hx; inversion Hnd; subst.
    + match goal with H : ~ In _ _ |- _ => apply H end.
      apply in_or_app. right. exact Hx.
    + eapply IH; eassumption.
Qed.

Lemma slice_negative_rev (n : Z) (l : list string) :
  n < 0 -> slice n (rev l) = rev (firstn (Z.to_nat (- n)) l).
Proof.
  intros Hn. unfold slice. replace (n <? 0) with true
    by (symmetry; apply Z.ltb_lt; exact Hn).
  rewrite length_rev, skipn_rev. f_equal.
  destruct (Nat.le_gt_cases (Z.to_nat (- n)) (List.length l)) as [Hle | Hgt].
  - f_equal. lia.
  - rewrite (firstn_all2 l (n := Z.to_nat (- n))) by lia.
    apply firstn_all2. lia.
Qed.

(** X15: a negative cap [-k] is not refused: the retention step then
    unlinks the first [k] plain files of the listing (all of them when
    there are fewer) and keeps the others. *)
Theorem cleanFs_negative_cap
        (config : Config) (fullFilePath : Path) (dir : string)
        (n : Z) (w : World) :
  keepLocalBackups config = true ->
  noOfLocalBackups config = Some n ->
  n < 0 ->
  fs_wf (fs w) ->
  fs_is_directory (fs w) dir = true ->
  exists w',
    cleanFs config fullFilePath dir w = (Ok tt, w')
    /\ plain_files (fs w') dir
       = skipn (Z.to_nat (- n)) (plain_files (fs w) dir)
    /\ filter is_unlink (calls w')
       = filter is_unlink (calls w)
         ++ map (fun i => UnlinkSync (path_resolve dir i))
                (rev (firstn (Z.to_nat (- n)) (plain_files (fs w) dir))).
Proof.
  intros Hk Hn Hneg Hwf Hd. apply fs_is_directory_listable in Hd.
  eexists. split.
  - apply cleanFs_capped_ok with (n := n); try assumption. lia.
  - simpl. rewrite slice_negative_rev by assumption. split.
    + rewrite plain_files_remove_all.
      pose proof (@filter_drops_head
                    (firstn (Z.to_nat (- n)) (plain_files (fs w) dir))
                    (skipn (Z.to_nat (- n)) (plain_files (fs w) dir))) as H.
      rewrite firstn_skipn in H. apply H.
      apply plain_files_NoDup. exact Hwf.
    + rewrite filter_app. simpl. rewrite filter_app.
      rewrite no_unlink_in_lstats, only_unlinks. reflexivity.
Qed.

Lemma cleanFs_negative_cap_witness :
  exists w',
    cleanFs (Sample.config true (Some (-1)) (Some 27017))
            (path_resolve "/app/backups" "c.gz") "/app/backups"
            Sample.backups_world
    = (Ok tt, w')
    /\ plain_files (fs w') "/app/backups" = ["b.gz"; "c.gz"].
Proof.
  destruct (@cleanFs_negative_cap
              (Sample.config true (Some (-1)) (Some 27017))
              (path_resolve "/app/backups" "c.gz") "/app/backups" (-1)
              Sample.backups_world eq_refl eq_refl ltac:(lia))
    as (w' & Hrun & Hfiles & _).
  - unfold fs_wf. simpl.
    repeat (constructor; [simpl; intuition discriminate|]). constructor.
  - reflexivity.
  - exists w'. split; [exact Hrun | exact Hfiles].
Defined.

(** X16: the order that decides is the listing order, not the age of the
    files.  With a cap [n >= 1] and more than [n] plain files in the
    staging directory, the plain file listed first is unlinked, also when
    it is the artifact the run has just written. *)
Theorem cleanFs_deletes_first_listed
        (config : Config) (fullFilePath : Path) (dir : string)
        (n : Z) (w : World) (first : string) (others : list string) :
  keepLocalBackups config = true ->
  noOfLocalBackups config = Some n ->
  1 <= n ->
  fs_wf (fs w) ->
  fs_is_directory (fs w) dir = true ->
  plain_files (fs w) dir = first :: others ->
  n <= Z.of_nat (List.length others) ->
  fullFilePath = path_resolve dir first ->
  fst (cleanFs config fullFilePath dir w) = Ok tt
  /\ fs_lookup (fs (snd (cleanFs config fullFilePath dir w))) fullFilePath = None.
Proof.
  intros Hk Hn Hle Hwf Hd Hfiles Hmore ->.
  rewrite cleanFs_trims with (n := n) by assumption. simpl.
  split; [reflexivity|].
  apply fs_lookup_remove_all_gone, path_resolve_In.
  rewrite Hfiles. simpl. rewrite skipn_app.
  apply in_or_app. right.
  replace (Z.to_nat n - List.length (rev others))%nat with 0%nat
    by (rewrite length_rev; lia).
  left. reflexivity.
Qed.

Lemma cleanFs_deletes_first_listed_witness :
  fst (cleanFs (Sample.config true (Some 2) (Some 27017))
               (path_resolve "/app/backups" "a.gz") "/app/backups"
               Sample.backups_world)
  = Ok tt
  /\ fs_lookup
       (fs (snd (cleanFs (Sample.config true (Some 2) (Some 27017))
                         (path_resolve "/app/backups" "a.gz") "/app/backups"
                         Sample.backups_world)))
       (path_resolve "/app/backups" "a.gz")
     = None.
Proof.
  apply (@cleanFs_deletes_first_listed
           (Sample.config true (Some 2) (Some 27017))
           (path_resolve "/app/backups" "a.gz") "/app/backups" 2
           Sample.backups_world "a.gz" ["b.gz"; "c.gz"]);
    try reflexivity; try (simpl; lia).
  unfold fs_wf. simpl.
  repeat (constructor; [simpl; intuition discriminate|]). constructor.
Defined.

(** X17: with a cap [n >= 1], the plain file listed last is never
    unlinked. *)
Theorem cleanFs_keeps_last_listed
        (config : Config) (fullFilePath : Path) (dir : string)
        (n : Z) (w : World) (earlier : list string) (last : string) :
  keepLocalBackups config = true ->
  noOfLocalBackups config = Some n ->
  1 <= n ->
  fs_wf (fs w) ->
  fs_is_directory (fs w) dir = true ->
  plain_files (fs w) dir = earlier ++ [last] ->
  exists data,
    fs_lookup (fs (snd (cleanFs config fullFilePath dir w)))
              (path_resolve dir last)
    = Some (RegularFile data)
    /\ fs_lookup (fs w) (path_resolve dir last) = Some (RegularFile data).
Proof.
  intros Hk Hn Hle Hwf Hd Hfiles.
  assert (Hlast : In last (plain_files (fs w) dir))
    by (rewrite Hfiles; apply in_or_app; right; left; reflexivity).
  apply plain_files_In in Hlast. destruct Hlast as [data Hdata].
  apply (fs_lookup_wf _ _ Hwf) in Hdata. exists data. split; [|exact Hdata].
  rewrite cleanFs_trims with (n := n) by assumption. simpl.
  rewrite fs_lookup_remove_all_other; [exact Hdata|].
  rewrite path_resolve_In, Hfiles, rev_app_distr. simpl.
  pose proof (plain_files_NoDup dir Hwf) as Hnd. rewrite Hfiles in Hnd.
  apply NoDup_rev in Hnd. rewrite rev_app_distr in Hnd. simpl in Hnd.
  inversion Hnd as [|? ? Hnotin _]; subst.
  destruct (Z.to_nat n) as [|k] eqn:Ek; [lia|]. simpl.
  intros Hin. apply Hnotin. apply skipn_In in Hin. exact Hin.
Qed.

Lemma cleanFs_keeps_last_listed_witness :
  exists data,
    fs_lookup
      (fs (snd (cleanFs (Sample.config true (Some 1) (Some 27017))
                        (path_resolve "/app/backups" "c.gz") "/app/backups"
                        Sample.backups_world)))
      (path_resolve "/app/backups" "c.gz")
    = Some (RegularFile data)
    /\ fs_lookup (fs Sample.backups_world) (path_resolve "/app/backups" "c.gz")
       = Some (RegularFile data).
Proof.
  apply (@cleanFs_keeps_last_listed
           (Sample.config true (Some 1) (Some 27017))
           (path_resolve "/app/backups" "c.gz") "/app/backups" 1
           Sample.backups_world ["a.gz"; "b.gz"] "c.gz");
    try reflexivity; try lia.
  unfold fs_wf. simpl.
  repeat (constructor; [simpl; intuition discriminate|]). constructor.
Defined.

Lemma fs_wf_filter (P : Path * Node -> bool) (f : FileSystem) :
  fs_wf f -> fs_wf (filter P f).
Proof.
  unfold fs_wf. induction f as [|e f IH]; simpl; intros Hnd; [constructor|].
  inversion Hnd as [|? ? Hnotin Hnd']; subst.
  destruct (P e); simpl; [|auto].
  constructor; [|auto].
  intros Hin. apply Hnotin. apply in_map_iff in Hin.
  destruct Hin as (x & Hx & Hin). apply filter_In in Hin.
  apply in_map_iff. exists x. tauto.
Qed.

Lemma fs_wf_remove_all (paths : list Path) (f : FileSystem) :
  fs_wf f -> fs_wf (fold_left fs_remove paths f).
Proof. intros H. rewrite fs_remove_all. apply fs_wf_filter. exact H. Qed.

(** Unlinking plain files of a directory leaves the directory listable. *)
Lemma fs_is_directory_remove_all (f : FileSystem) (dir : string)
      (names : list string) :
  fs_wf f ->
  incl names (plain_files f dir) ->
  fs_is_directory f dir = true ->
  fs_is_directory (fold_left fs_remove (map (path_resolve dir) names) f) dir
  = true.
Proof.
  intros Hwf Hincl Hd. unfold fs_is_directory in *.
  apply existsb_exists in Hd. destruct Hd as ([q node] & Hin & Hq).
  simpl in Hq. apply andb_true_iff in Hq. destruct Hq as [Hq Hnode].
  destruct node; try discriminate.
  apply existsb_exists. exists (q, Directory). split.
  - apply fs_remove_all_In. split; [exact Hin|].
    intros Hdel. apply in_map_iff in Hdel. destruct Hdel as (a & <- & Ha).
    apply Hincl, plain_files_In in Ha. destruct Ha as [c Hc].
    pose proof (@fs_wf_functional f _ _ _ Hwf Hin Hc). discriminate.
  - simpl. rewrite Hq. reflexivity.
Qed.

Lemma no_unlink_in_listing (cs : list Event) (dir : string)
      (items : list string) :
  filter is_unlink
    (cs ++ ReaddirSync dir
        :: map (fun i => LstatSync (path_resolve dir i)) items)
  = filter is_unlink cs.
Proof.
  rewrite filter_app. simpl. rewrite no_unlink_in_lstats. apply app_nil_r.
Qed.

(** X18: trimming is idempotent.  With a cap [n >= 1], a second retention
    step right after a first one succeeds, unlinks nothing and leaves the
    file system as the first one left it. *)
Theorem cleanFs_retained_idempotent
        (config : Config) (fullFilePath : Path) (dir : string)
        (n : Z) (w : World) :
  keepLocalBackups config = true ->
  noOfLocalBackups config = Some n ->
  1 <= n ->
  fs_wf (fs w) ->
  fs_is_directory (fs w) dir = true ->
  exists w' w'',
    cleanFs config fullFilePath dir w = (Ok tt, w')
    /\ cleanFs config fullFilePath dir w' = (Ok tt, w'')
    /\ fs w'' = fs w'
    /\ filter is_unlink (calls w'') = filter is_unlink (calls w').
Proof.
  intros Hk Hn Hle Hwf Hd.
  eexists. eexists. split.
  - apply cleanFs_trims with (n := n); assumption.
  - set (old := skipn (Z.to_nat n) (rev (plain_files (fs w) dir))).
    set (w' := {| fs := fold_left fs_remove (map (path_resolve dir) old) (fs w);
                  calls := _ |}).
    assert (Hwf' : fs_wf (fs w')) by (apply fs_wf_remove_all; exact Hwf).
    assert (Hd' : fs_is_directory (fs w') dir = true).
    { apply fs_is_directory_remove_all; try assumption.
      intros a Ha. apply skipn_In, in_rev in Ha. exact Ha. }
    assert (Hcount : Z.of_nat (List.length (plain_files (fs w') dir)) <= n).
    { simpl. unfold old. rewrite plain_files_trimmed by assumption.
      rewrite length_rev.
      pose proof (firstn_le_length (Z.to_nat n) (rev (plain_files (fs w) dir))).
      lia. }
    apply fs_is_directory_listable in Hd'.
    rewrite cleanFs_capped with (n := n) by (try assumption; lia).
    rewrite listed_files_wf by assumption.
    rewrite slice_covers by (rewrite length_rev; exact Hcount).
    simpl. split; [reflexivity|]. split; [reflexivity|].
    apply no_unlink_in_listing.
Qed.

Lemma cleanFs_retained_idempotent_witness :
  exists w' w'',
    cleanFs (Sample.config true (Some 2) (Some 27017))
            (path_resolve "/app/backups" "c.gz") "/app/backups"
            Sample.backups_world
    = (Ok tt, w')
    /\ cleanFs (Sample.config true (Some 2) (Some 27017))
               (path_resolve "/app/backups" "c.gz") "/app/backups" w'
       = (Ok tt, w'')
    /\ fs w'' = fs w'
    /\ filter is_unlink (calls w'') = filter is_unlink (calls w').
Proof.
  apply (@cleanFs_retained_idempotent
           (Sample.config true (Some 2) (Some 27017))
           (path_resolve "/app/backups" "c.gz") "/app/backups" 2
           Sample.backups_world);
    try reflexivity; try lia.
  unfold fs_wf. simpl.
  repeat (constructor; [simpl; intuition discriminate|]). constructor.
Defined.

(** ** PathPlanner and the retained-mode run *)

(** *** Resolving a simple name against a resolved directory *)

Lemma slash_free_app (a b : string) :
  slash_free (a ++ b) = slash_free a && slash_free b.
Proof.
  induction a as [|c a IH]; simpl; [reflexivity|].
  rewrite IH, andb_assoc. reflexivity.
Qed.

Lemma segments_from_slash_free (acc s : string) :
  slash_free acc = true ->
  Forall (fun seg => slash_free seg = true) (segments_from acc s).
Proof.
  revert acc. induction s as [|c s IH]; intros acc Hacc; simpl.
  - constructor; [exact Hacc | constructor].
  - destruct (Ascii.eqb c "/") eqn:Ec.
    + constructor; [exact Hacc | apply IH; reflexivity].
    + apply IH. rewrite slash_free_app, Hacc. simpl. rewrite Ec. reflexivity.
Qed.

Lemma normalize_segments_simple (stack segs : list string) :
  Forall (fun seg => simple_name seg = true) stack ->
  Forall (fun seg => slash_free seg = true) segs ->
  Forall (fun seg => simple_name seg = true) (normalize_segments stack segs).
Proof.
  revert stack. induction segs as [|seg segs IH]; intros stack Hstack Hsegs; simpl.
  - apply Forall_rev. exact Hstack.
  - inversion Hsegs as [|? ? Hseg Hrest]; subst.
    destruct (String.eqb seg "" || String.eqb seg ".") eqn:E1.
    + apply IH; assumption.
    + destruct (String.eqb seg "..") eqn:E2.
      * apply IH; [|assumption].
        destruct stack; [constructor | inversion Hstack; assumption].
      * apply IH; [|assumption]. constructor; [|assumption].
        unfold simple_name. rewrite Hseg.
        apply orb_false_iff in E1. destruct E1 as [-> ->]. rewrite E2.
        reflexivity.
Qed.

Lemma resolve_segments_simple (cwd : string) (parts : list string) :
  Forall (fun seg => simple_name seg = true) (resolve_segments cwd parts).
Proof.
  unfold resolve_segments. destruct (join_until_absolute parts) as [joined absolute].
  apply normalize_segments_simple; [constructor|].
  apply segments_from_slash_free. reflexivity.
Qed.

Lemma segments_from_segment (acc s rest : string) :
  slash_free s = true ->
  segments_from acc (s ++ String "/" rest) = (acc ++ s)%string :: segments_from "" rest.
Proof.
  revert acc. induction s as [|c s IH]; intros acc Hs; simpl.
  - rewrite string_app_nil_r. reflexivity.
  - simpl in Hs. apply andb_true_iff in Hs. destruct Hs as [Hc Hs].
    apply negb_true_iff in Hc. rewrite Hc, IH by exact Hs.
    rewrite string_app_assoc. reflexivity.
Qed.

(** The text [s1/s2/.../] of a list of segments. *)
Lemma segments_from_joined (segs : list string) (rest : string) :
  Forall (fun seg => slash_free seg = true) segs ->
  segments_from ""
    (fold_right (fun seg text => (seg ++ String "/" text)%string) rest segs)
  = segs ++ segments_from "" rest.
Proof.
  induction 1 as [|seg segs Hseg _ IH]; simpl; [reflexivity|].
  rewrite segments_from_segment by exact Hseg. rewrite IH. reflexivity.
Qed.

Lemma concat_cons (x : string) (l : list string) :
  String.concat "" (x :: l) = (x ++ String.concat "" l)%string.
Proof.
  destruct l; simpl; [rewrite string_app_nil_r|]; reflexivity.
Qed.

Lemma rooted_text_joined (segs : list string) (rest : string) :
  (String.concat "" (map (fun seg => ("/" ++ seg)%string) segs)
   ++ String "/" rest)%string
  = String "/"
      (fold_right (fun seg text => (seg ++ String "/" text)%string) rest segs).
Proof.
  induction segs as [|seg segs IH]; [reflexivity|].
  rewrite map_cons, concat_cons.
  rewrite !string_app_assoc, IH. reflexivity.
Qed.

Lemma rooted_text_snoc (segs : list string) (name : string) :
  String.concat "" (map (fun seg => ("/" ++ seg)%string) (segs ++ [name]))
  = (String.concat "" (map (fun seg => ("/" ++ seg)%string) segs)
     ++ "/" ++ name)%string.
Proof.
  induction segs as [|seg segs IH]; [reflexivity|].
  rewrite <- app_comm_cons, !map_cons, !concat_cons, IH.
  rewrite !string_app_assoc. reflexivity.
Qed.

Lemma path_of_segments_snoc (segs : list string) (name : string) :
  path_of_segments (segs ++ [name])
  = {| dirname := String.concat "" (map (fun seg => ("/" ++ seg)%string) segs);
       basename := name |}.
Proof.
  unfold path_of_segments. rewrite rev_app_distr. simpl.
  rewrite rev_involutive. reflexivity.
Qed.

Lemma path_text_of_segments (segs : list string) :
  segs <> [] ->
  path_text (path_of_segments segs)
  = String.concat "" (map (fun seg => ("/" ++ seg)%string) segs).
Proof.
  intros Hne. destruct (exists_last Hne) as (above & name & ->).
  rewrite path_of_segments_snoc, rooted_text_snoc. reflexivity.
Qed.

Lemma normalize_segments_kept (stack segs rest : list string) :
  Forall (fun seg => simple_name seg = true) segs ->
  normalize_segments stack (segs ++ rest)
  = normalize_segments (rev segs ++ stack) rest.
Proof.
  intros H. revert stack. induction H as [|seg segs Hseg _ IH]; intros stack;
    [reflexivity|].
  simpl. unfold simple_name in Hseg. apply andb_true_iff in Hseg.
  destruct Hseg as [_ Hseg]. apply negb_true_iff in Hseg.
  apply orb_false_iff in Hseg. destruct Hseg as [Hseg ->].
  rewrite Hseg. rewrite IH, <- app_assoc. reflexivity.
Qed.

Lemma simple_name_relative (name : string) :
  simple_name name = true ->
  String.eqb name "" = false /\ is_absolute name = false
  /\ slash_free name = true.
Proof.
  unfold simple_name. intros H. apply andb_true_iff in H.
  destruct H as [Hs H]. apply negb_true_iff in H.
  apply orb_false_iff in H. destruct H as [H _].
  apply orb_false_iff in H. destruct H as [H _].
  split; [exact H | split; [|exact Hs]].
  destruct name as [|c name]; [reflexivity|]. simpl in *.
  apply andb_true_iff in Hs. destruct Hs as [Hc _].
  apply negb_true_iff in Hc. exact Hc.
Qed.

Lemma join_until_absolute_entry (dir name : string) :
  is_absolute dir = true ->
  simple_name name = true ->
  join_until_absolute [dir; name]
  = ((dir ++ String "/" (name ++ String "/" ""))%string, true).
Proof.
  intros Hdir Hname.
  destruct (simple_name_relative _ Hname) as (Hn1 & Hn2 & _).
  cbn [join_until_absolute]. rewrite Hn1, Hn2.
  destruct dir as [|c dir]; [discriminate Hdir|].
  rewrite Hdir. reflexivity.
Qed.

(** [path.resolve(dir, name)] for a resolved directory [dir] other than the
    root and a simple name is the entry [name] of [dir]. *)
Lemma path_resolve_all_entry (cwd cwd' : string) (parts : list string)
      (name : string) :
  resolve_segments cwd' parts <> [] ->
  simple_name name = true ->
  path_resolve_all cwd [path_text (path_resolve_all cwd' parts); name]
  = path_resolve (path_text (path_resolve_all cwd' parts)) name.
Proof.
  intros Hne Hname. unfold path_resolve_all.
  pose proof (resolve_segments_simple cwd' parts) as Hsimple.
  set (segs := resolve_segments cwd' parts) in *.
  rewrite path_text_of_segments by exact Hne.
  assert (Habs : is_absolute
                   (String.concat "" (map (fun seg => ("/" ++ seg)%string) segs))
                 = true).
  { destruct segs as [|seg segs']; [contradiction|].
    rewrite map_cons, concat_cons. reflexivity. }
  unfold resolve_segments at 1.
  rewrite join_until_absolute_entry by assumption.
  rewrite rooted_text_joined. unfold segments.
  cbn [segments_from Ascii.eqb Bool.eqb]. 
  rewrite segments_from_joined
    by (eapply Forall_impl; [|exact Hsimple];
        intros a Ha; apply (simple_name_relative _ Ha)).
  destruct (simple_name_relative _ Hname) as (_ & _ & Hn3).
  rewrite segments_from_segment by exact Hn3.
  cbn [segments_from normalize_segments String.eqb orb].
  change ("" ++ name)%string with name.
  replace (segs ++ [name; ""]) with ((segs ++ [name]) ++ [""])
    by (rewrite <- app_assoc; reflexivity).
  rewrite normalize_segments_kept
    by (apply Forall_app; split; [exact Hsimple | constructor; [exact Hname | constructor]]).
  cbn [normalize_segments String.eqb orb].
  rewrite app_nil_r, rev_involutive. apply path_of_segments_snoc.
Qed.

Lemma segments_from_app (acc text rest : string) :
  exists before,
    segments_from acc (text ++ String "/" rest) = before ++ segments_from "" rest.
Proof.
  revert acc. induction text as [|c text IH]; intros acc; simpl.
  - exists [acc]. reflexivity.
  - destruct (Ascii.eqb c "/").
    + destruct (IH "") as [before ->]. exists (acc :: before). reflexivity.
    + apply IH.
Qed.

Lemma normalize_segments_app (stack before rest : list string) :
  exists stack',
    normalize_segments stack (before ++ rest) = normalize_segments stack' rest.
Proof.
  revert stack. induction before as [|seg before IH]; intros stack; simpl.
  - exists stack. reflexivity.
  - destruct (String.eqb seg "" || String.eqb seg ".");
      [|destruct (String.eqb seg "..")]; apply IH.
Qed.

(** The backups folder is never the root. *)
Lemma resolve_segments_folder (cwd root name : string) :
  simple_name name = true ->
  resolve_segments cwd [root; name] <> [].
Proof.
  intros Hname.
  destruct (simple_name_relative _ Hname) as (Hn1 & Hn2 & Hn3).
  assert (Htext : exists above,
             resolve_segments cwd [root; name]
             = normalize_segments []
                 (segments (above ++ String "/" (name ++ String "/" "")))).
  { unfold resolve_segments. cbn [join_until_absolute]. rewrite Hn1, Hn2.
    destruct (String.eqb root "").
    - exists cwd. reflexivity.
    - destruct (is_absolute root).
      + exists root. reflexivity.
      + exists (cwd ++ "/" ++ root)%string.
        rewrite !string_app_assoc. reflexivity. }
  destruct Htext as [above ->]. unfold segments.
  destruct (segments_from_app "" above (name ++ String "/" "")) as [before ->].
  rewrite segments_from_segment by exact Hn3.
  destruct (normalize_segments_app
              [] before (("" ++ name)%string :: segments_from "" ""))
    as [stack ->].
  change ("" ++ name)%string with name.
  unfold simple_name in Hname. apply andb_true_iff in Hname.
  destruct Hname as [_ Hname]. apply negb_true_iff in Hname.
  apply orb_false_iff in Hname. destruct Hname as [Hname Hdots].
  cbn [normalize_segments segments_from]. rewrite Hname, Hdots.
  cbn [String.eqb orb normalize_segments]. simpl rev.
  intros H. apply app_eq_nil in H. destruct H as [_ H]. discriminate H.
Qed.

(** X19: where the archive goes and what it is called.  The file name is
    the resolved database name ([undefined] when the connection has none),
    an underscore, the clock reading at the configured offset (offset [0]
    when none is configured) and [.gz].  The staging directory is
    [path.resolve(PROJECT_ROOT, "backups")] in retained mode and
    [path.resolve(tmpdir())] otherwise, and the archive is [path.resolve]
    of the staging directory and the file name: when the file name is a
    single path segment and the staging directory is not the root (it never
    is in retained mode), the archive is the entry of that name in the
    staging directory.  The read stream of the upload is opened on that
    path and the file name is the key of the put-object call. *)
Theorem planned_artifact_path
        (env : Env) (c : Config) (w w1 w2 : World) (p : Plan) :
  backupAndUpload_plan env c w = (Ok p, w1) ->
  fileName p
  = (show_or_undefined (database (mongoConnectionInstance p)) ++ "_"
     ++ moment_format env
          (match timezoneOffset c with Some z => z | None => 0 end)
     ++ ".gz")%string
  /\ backUpPath p
     = path_text
         (path_resolve_all
            (cwd env)
            (if keepLocalBackups c
             then [PROJECT_ROOT env; "backups"]
             else [tmpdir env]))
  /\ fullFilePath p = path_resolve_all (cwd env) [backUpPath p; fileName p]
  /\ (simple_name (fileName p) = true ->
      keepLocalBackups c = true \/ backUpPath p <> "/" ->
      fullFilePath p = path_resolve (backUpPath p) (fileName p))
  /\ exists bucket object,
      calls (snd (client_uploadFile (s3client p) (fullFilePath p)
                                    (fileName p) w2))
      = calls w2 ++ [ CreateReadStream (fullFilePath p);
                      S3CreateBucket bucket; S3Upload object ]
      /\ param "Key" object = Some (PString (Some (fileName p))).
Proof.
  intros Hplan. apply backupAndUpload_plan_inv in Hplan.
  destruct Hplan as (Hdir & Hname & Hfull & (s & _ & Hclient) & _).
  assert (Hstaging : backUpPath p
                     = path_text
                         (path_resolve_all
                            (cwd env)
                            (if keepLocalBackups c
                             then [PROJECT_ROOT env; "backups"]
                             else [tmpdir env]))).
  { rewrite Hdir. unfold getBackUpPath.
    destruct (keepLocalBackups c); reflexivity. }
  split; [rewrite Hname; reflexivity|].
  split; [exact Hstaging|].
  split; [exact Hfull|].
  split.
  - intros Hsimple Hroot. rewrite Hfull, Hstaging.
    apply path_resolve_all_entry; [|exact Hsimple].
    destruct (keepLocalBackups c).
    + apply resolve_segments_folder. reflexivity.
    + destruct Hroot as [Hroot | Hroot]; [discriminate Hroot|].
      intros Hnil. apply Hroot. rewrite Hstaging.
      unfold path_resolve_all. rewrite Hnil. reflexivity.
  - rewrite Hclient. simpl.
    exists (bucketParams s),
      (uploadParams s (fullFilePath p) (fileName p) (fs w2)).
    split; [apply uploadFile_calls | reflexivity].
Qed.

(** A project root with a trailing slash, as the module paths give it. *)
Lemma planned_artifact_path_witness :
  exists p w1,
    backupAndUpload_plan (Cases.env true)
                         (Sample.config true None (Some 27017))
                         Cases.fresh_world
    = (Ok p, w1)
    /\ backUpPath p = "/app/backups"
    /\ fullFilePath p
       = path_resolve "/app/backups" "sales_2020-01-02T03-04-05.gz"
    /\ exists bucket object,
        calls (snd (client_uploadFile (s3client p) (fullFilePath p)
                                      (fileName p) w1))
        = calls w1 ++ [ CreateReadStream (fullFilePath p);
                        S3CreateBucket bucket; S3Upload object ]
        /\ param "Key" object
           = Some (PString (Some "sales_2020-01-02T03-04-05.gz")).
Proof.
  exists (Sample.plan (Cases.env true) "/app/backups"),
    (Sample.planned (Cases.env true)
                    (Sample.config true None (Some 27017))
                    Cases.fresh_world).
  destruct (@planned_artifact_path
              (Cases.env true)
              (Sample.config true None (Some 27017))
              Cases.fresh_world
              (Sample.planned (Cases.env true)
                              (Sample.config true None (Some 27017))
                              Cases.fresh_world)
              (Sample.planned (Cases.env true)
                              (Sample.config true None (Some 27017))
                              Cases.fresh_world)
              (Sample.plan (Cases.env true) "/app/backups")
              eq_refl)
    as (_ & Hd & _ & He & Hkey).
  split; [reflexivity|].
  split; [exact Hd|].
  split; [apply He; [reflexivity | left; reflexivity] | exact Hkey].
Defined.


Lemma createS3Instance_world (env : Env) (s : S3Config) (w : World) :
  createS3Instance env (Some s) w
  = (Ok {| client_uploadFile := uploadFile env s |},
     {| fs := fs w;
        calls := calls w
                 ++ [AwsConfigUpdate (accessKey s) (secretKey s) (region s)] |}).
Proof. reflexivity. Qed.



(** X21: without a cap nothing is ever removed by a run.  In retained
    mode with no cap (or a cap of [0]), once the dump and the upload have
    succeeded the run resolves in the world the upload left: no unlink is
    called, the file system is the one the dump process left, and the
    archive path still opens for reading (on a plain file, or through a
    link that leads to one). *)
Theorem retained_run_without_cap
        (env : Env) (c : Config) (w w1 w2 w3 : World) (p : Plan) :
  isValidConfig (Some c) = true ->
  keepLocalBackups c = true ->
  noOfLocalBackups c = None \/ noOfLocalBackups c = Some 0 ->
  backupAndUpload_plan env c w = (Ok p, w1) ->
  createBackup env (mongoConnectionInstance p) (fullFilePath p) w1 = (Ok tt, w2) ->
  client_uploadFile (s3client p) (fullFilePath p) (fileName p) w2 = (Ok tt, w3) ->
  backupAndUpload env (Some c) w = (Resolved, w3)
  /\ fs w3 = fs w2
  /\ (exists data, stream_data (fs w3) (fullFilePath p) = Some data)
  /\ filter is_unlink (calls w3) = filter is_unlink (calls w).
Proof.
  intros Hv Hk Hcap Hplan Hdump Hup.
  destruct (backupAndUpload_plan_inv _ _ _ Hplan)
    as (_ & _ & _ & (s & _ & Hclient) & Hcalls).
  assert (Hchain : backupAndUpload_chain env c p w1 = (Ok tt, w3)).
  { unfold backupAndUpload_chain. unfold bind at 1. rewrite Hdump.
    unfold bind at 1. rewrite Hup. unfold cleanFs. rewrite Hk.
    destruct Hcap as [-> | ->]; reflexivity. }
  rewrite backupAndUpload_valid by assumption. rewrite Hplan, Hchain.
  split; [reflexivity|].
  rewrite Hclient in Hup. simpl in Hup.
  destruct (uploadFile_ok_inv _ _ _ _ _ Hup) as [Hfile Hfs].
  rewrite Hfs. repeat split; [exact Hfile|].
  pose proof (uploadFile_calls env s (fullFilePath p) (fileName p) w2) as Hc.
  rewrite Hup in Hc. simpl in Hc. rewrite Hc.
  rewrite createBackup_run in Hdump. injection Hdump as _ <-. simpl.
  rewrite !filter_app. simpl. rewrite !app_nil_r. exact Hcalls.
Qed.

Lemma retained_run_without_cap_witness :
  backupAndUpload (Sample.env "/app/backups" None None)
                  (Some (Sample.config true None (Some 27017)))
                  Sample.backups_world
  = (Resolved,
     Sample.uploaded (Sample.env "/app/backups" None None)
                     (Sample.config true None (Some 27017)) "/app/backups"
                     Sample.backups_world)
  /\ exists data,
      stream_data
        (fs (Sample.uploaded (Sample.env "/app/backups" None None)
                             (Sample.config true None (Some 27017))
                             "/app/backups" Sample.backups_world))
        (Sample.artifact "/app/backups")
      = Some data.
Proof.
  destruct (@retained_run_without_cap
              (Sample.env "/app/backups" None None)
              (Sample.config true None (Some 27017))
              Sample.backups_world
              (Sample.planned (Sample.env "/app/backups" None None)
                              (Sample.config true None (Some 27017))
                              Sample.backups_world)
              (Sample.dumped (Sample.env "/app/backups" None None)
                             (Sample.config true None (Some 27017))
                             "/app/backups" Sample.backups_world)
              (Sample.uploaded (Sample.env "/app/backups" None None)
                               (Sample.config true None (Some 27017))
                               "/app/backups" Sample.backups_world)
              (Sample.plan (Sample.env "/app/backups" None None) "/app/backups")
              eq_refl eq_refl (or_introl eq_refl) eq_refl eq_refl eq_refl)
    as (Hrun & _ & Hfile & _).
  split; [exact Hrun | exact Hfile].
Defined.

(** ** The backups folder behind a broken link *)

Lemma prepareFolderStructure_dangling
      (env : Env) (c : Config) (w : World) (target : Path) :
  keepLocalBackups c = true ->
  fs_lookup (fs w) (localFolder env) = Some (SymbolicLink target) ->
  fs_lookup (fs w) target = None ->
  prepareFolderStructure env c w
  = (Fail (FsError "mkdir" "EEXIST" (path_text (localFolder env))),
     {| fs := fs w;
        calls := calls w ++ [ExistsSync (localFolder env);
                             MkdirSync (localFolder env)] |}).
Proof.
  intros Hk Hlink Hnone. unfold prepareFolderStructure. rewrite Hk.
  fold (localFolder env). unfold existsSync, mkdirSync, fs_stat. run_task.
  rewrite Hlink. simpl. rewrite Hnone. simpl. rewrite Hlink. simpl.
  rewrite <- app_assoc. reflexivity.
Qed.

(** X22: a broken link in the place of the backups folder stops the run
    before it starts.  In retained mode, when the path of the backups
    folder holds a symbolic link that leads nowhere, [existsSync] answers
    [false], [mkdirSync] throws [EEXIST], and the call of an accepted
    configuration throws that error itself: no promise is returned, the
    file system is untouched and the only calls made are the credentials
    update, the existence test and the failed [mkdir]; no dump is run. *)
Theorem backups_folder_dangling_link
        (env : Env) (c : Config) (s : S3Config) (w : World) (target : Path) :
  isValidConfig (Some c) = true ->
  keepLocalBackups c = true ->
  s3 c = Some s ->
  (forall uri, mongodb c = Some (MongoUri uri) ->
               MongodbURI_parse env uri <> None) ->
  fs_lookup (fs w) (localFolder env) = Some (SymbolicLink target) ->
  fs_lookup (fs w) target = None ->
  backupAndUpload env (Some c) w
  = (Thrown (FsError "mkdir" "EEXIST" (path_text (localFolder env))),
     {| fs := fs w;
        calls := calls w
                 ++ [ AwsConfigUpdate (accessKey s) (secretKey s) (region s);
                      ExistsSync (localFolder env);
                      MkdirSync (localFolder env) ] |}).
Proof.
  intros Hv Hk Hs Hparse Hlink Hnone.
  rewrite backupAndUpload_valid by exact Hv.
  apply isValidConfig_true_iff in Hv. destruct Hv as [_ Hdb].
  assert (Hinst : exists inst,
             getMongodbConnectionInstance env c w = (Ok inst, w)).
  { unfold getMongodbConnectionInstance.
    destruct Hdb as [(uri & Hm & _) | (m & Hm & _)]; rewrite Hm.
    - specialize (Hparse uri Hm).
      destruct (MongodbURI_parse env uri);
        [eexists; reflexivity | exfalso; apply Hparse; reflexivity].
    - eexists. reflexivity. }
  destruct Hinst as [inst Hinst].
  unfold backupAndUpload_plan. unfold bind at 1. rewrite Hinst.
  unfold bind at 1. rewrite Hs, createS3Instance_world.
  unfold bind at 1.
  rewrite (@prepareFolderStructure_dangling
             env c
             {| fs := fs w;
                calls := calls w
                         ++ [AwsConfigUpdate (accessKey s) (secretKey s)
                                             (region s)] |}
             target Hk Hlink Hnone).
  simpl. rewrite <- app_assoc. reflexivity.
Qed.

Lemma backups_folder_dangling_link_witness :
  backupAndUpload
    (Sample.env "/app/backups" None None)
    (Some (Sample.config true None (Some 27017)))
    {| fs := [ Sample.root_entry "app";
               (path_resolve "/app" "backups",
                SymbolicLink (path_resolve "/mnt" "backups")) ];
       calls := [] |}
  = (Thrown (FsError "mkdir" "EEXIST" "/app/backups"),
     {| fs := [ Sample.root_entry "app";
                (path_resolve "/app" "backups",
                 SymbolicLink (path_resolve "/mnt" "backups")) ];
        calls := [ AwsConfigUpdate (Some "AKIA") (Some "secret")
                                   (Some "us-east-1");
                   ExistsSync (path_resolve "/app" "backups");
                   MkdirSync (path_resolve "/app" "backups") ] |}).
Proof.
  apply (@backups_folder_dangling_link
           (Sample.env "/app/backups" None None)
           (Sample.config true None (Some 27017))
           Sample.storage
           {| fs := [ Sample.root_entry "app";
                      (path_resolve "/app" "backups",
                       SymbolicLink (path_resolve "/mnt" "backups")) ];
              calls := [] |}
           (path_resolve "/mnt" "backups")).
  - reflexivity.
  - reflexivity.
  - reflexivity.
  - intros uri H. discriminate H.
  - reflexivity.
  - reflexivity.
Defined.
